(** * Storen stock management: the inventory page's data logic

    A shallow embedding of [src/SSMS/src/pages/Inventory.jsx]: the image
    optimiser, the name-based reconciliation of stock rows with the category
    and warehouse catalogs, the paginated fetch, the numeric coercion of form
    input, the stock status badge and the page/filter/debounce controller.

    JavaScript numbers are IEEE-754 binary64 values and are modelled by Rocq's
    primitive floats wherever the code does floating-point work (image
    dimensions, quantity, price, threshold).  Row counts, page numbers, byte
    sizes, timestamps and catalog identifiers are integers that stay far below
    2^53, where binary64 arithmetic is exact; they are modelled by [Z]. *)

From Stdlib Require Import ZArith List String Ascii Bool Lia.
From Stdlib Require Import Uint63 Floats.
From Stdlib Require Import QArith Qround.
From Stdlib Require Import DecimalString DecimalZ.
Import ListNotations.

Set Warnings "-inexact-float".

Local Open Scope string_scope.
Local Open Scope Z_scope.

(** ** JavaScript values used by the page *)

Module JS.

Definition number : Type := float.
Bind Scope float_scope with number.

(** [ToBoolean] on a number: [NaN], [+0] and [-0] are falsy. *)
Definition truthy_number (x : number) : bool :=
  negb (PrimFloat.is_nan x || PrimFloat.is_zero x).

(** [ToBoolean] on a string: only the empty string is falsy. *)
Definition truthy_string (s : string) : bool :=
  negb (String.eqb s "").

(** [x || d] on numbers. *)
Definition or_number (x d : number) : number :=
  if truthy_number x then x else d.

(** [x === y] on numbers. *)
Definition strict_eq (x y : number) : bool := PrimFloat.eqb x y.

Definition of_Z (z : Z) : number := PrimFloat.of_uint63 (Uint63.of_Z z).

(** The state of a promise once the event loop is idle. [Pending] is a
    promise that is never settled. *)
Inductive promise (A : Type) : Type :=
| Resolved (a : A)
| Rejected (msg : string)
| Pending.
Arguments Resolved {A} a.
Arguments Rejected {A} msg.
Arguments Pending {A}.

(** *** [parseInt] with its default radix

    Strings are sequences of UTF-8 bytes. *)

Definition is_white (c : ascii) : bool :=
  match nat_of_ascii c with
  | 9%nat | 10%nat | 11%nat | 12%nat | 13%nat | 32%nat => true
  | _ => false
  end.

Definition byte_is (c : ascii) (n : nat) : bool := (nat_of_ascii c =? n)%nat.

(** The white space of the language that takes two or three bytes in
    UTF-8: U+00A0; U+1680, U+2000 to U+200A, U+2028, U+2029, U+202F,
    U+205F, U+3000 and U+FEFF. *)
Definition white2 (c1 c2 : ascii) : bool :=
  byte_is c1 194 && byte_is c2 160.

Definition white3 (c1 c2 c3 : ascii) : bool :=
  byte_is c1 225 && byte_is c2 154 && byte_is c3 128
  || byte_is c1 226 && byte_is c2 128
     && ((128 <=? nat_of_ascii c3)%nat && (nat_of_ascii c3 <=? 138)%nat
         || byte_is c3 168 || byte_is c3 169 || byte_is c3 175)
  || byte_is c1 226 && byte_is c2 129 && byte_is c3 159
  || byte_is c1 227 && byte_is c2 128 && byte_is c3 128
  || byte_is c1 239 && byte_is c2 187 && byte_is c3 191.

Fixpoint skip_white (s : string) : string :=
  match s with
  | String c s' =>
      if is_white c then skip_white s'
      else if byte_is c 194 then
        match s' with
        | String c2 rest => if white2 c c2 then skip_white rest else s
        | EmptyString => s
        end
      else if byte_is c 225 || byte_is c 226 || byte_is c 227
              || byte_is c 239 then
        match s' with
        | String c2 (String c3 rest) =>
            if white3 c c2 c3 then skip_white rest else s
        | _ => s
        end
      else s
  | EmptyString => s
  end.

Definition digit_value (radix : Z) (c : ascii) : option Z :=
  let n := Z.of_nat (nat_of_ascii c) in
  let v :=
    if (48 <=? n) && (n <=? 57) then Some (n - 48)
    else if (97 <=? n) && (n <=? 122) then Some (n - 87)
    else if (65 <=? n) && (n <=? 90) then Some (n - 55)
    else None in
  match v with
  | Some d => if d <? radix then Some d else None
  | None => None
  end.

(** Longest prefix of digits; [None] when there is no digit at all. *)
Fixpoint digits (radix : Z) (acc : option Z) (s : string) : option Z :=
  match s with
  | String c s' =>
      match digit_value radix c with
      | Some d =>
          digits radix
            (Some (match acc with Some a => a * radix + d | None => d end)) s'
      | None => acc
      end
  | EmptyString => acc
  end.

(** [parseInt(s)]; [None] stands for [NaN]. *)
Definition parseInt (s : string) : option Z :=
  let s := skip_white s in
  let '(sign, s) :=
    match s with
    | String "-" r => (-1, r)
    | String "+" r => (1, r)
    | _ => (1, s)
    end in
  let '(radix, s) :=
    match s with
    | String "0" (String "x" r) => (16, r)
    | String "0" (String "X" r) => (16, r)
    | _ => (10, s)
    end in
  option_map (Z.mul sign) (digits radix None s).

End JS.

(** ** Image optimisation before upload *)

Module ImageCompressor.
Import JS.

(** A [File]: its name, MIME type, content and modification time.  The
    [size] property is the length of the content. *)
Record File : Type := mkFile {
  file_name : string;
  file_type : string;
  file_bytes : list Byte.byte;
  file_lastModified : Z
}.

Definition size (f : File) : Z := Z.of_nat (List.length (file_bytes f)).

Definition MAX_FILE_SIZE : Z := 100 * 1024.

Definition SUPPORTED_FORMATS : list string :=
  ["image/jpg"; "image/jpeg"; "image/gif"; "image/png"].

(** [Math.sqrt((MAX_FILE_SIZE * 8) / 3) * 0.9] *)
Definition maxDimension : number :=
  (PrimFloat.sqrt ((of_Z MAX_FILE_SIZE * 8) / 3) * 0.9)%float.

(** The [width]/[height] computed in [img.onload] from the decoded
    dimensions of the image. *)
Definition targetDimensions (img_width img_height : number)
  : number * number :=
  let aspectRatio := (img_width / img_height)%float in
  if (img_height <? img_width)%float then
    let width := maxDimension in
    let height := (width / aspectRatio)%float in
    (width, height)
  else
    let height := maxDimension in
    let width := (height * aspectRatio)%float in
    (width, height).

Section Browser.
(** What the browser contributes: decoding the file to an image (its
    [onload] does not fire when the data cannot be decoded, and the code
    registers no [onerror]), encoding the canvas to JPEG at quality 0.75
    (a null blob on failure), and the clock. *)
Variable decodeImage : File -> option (number * number).
Variable toBlob : File -> number -> number -> option (list Byte.byte).
Variable now : Z.

Definition optimizeImage (file : option File) : promise File :=
  match file with
  | None => Rejected "No file provided"
  | Some file =>
      if MAX_FILE_SIZE <? size file then
        match decodeImage file with
        | None => Pending
        | Some (img_width, img_height) =>
            let '(width, height) := targetDimensions img_width img_height in
            match toBlob file width height with
            | Some blob =>
                Resolved {| file_name := file_name file;
                            file_type := "image/jpeg";
                            file_bytes := blob;
                            file_lastModified := now |}
            | None => Rejected "Failed to optimize image"
            end
        end
      else Resolved file
  end.

(** [handleFileChange]: the file that ends up on the form ([None]: the
    form is left as it was), or the message put in the error slot. *)
Definition handleFileChange (selected : option File)
  : string + option File :=
  match selected with
  | None => inr None
  | Some file =>
      if existsb (String.eqb (file_type file)) SUPPORTED_FORMATS then
        match optimizeImage (Some file) with
        | Resolved optimizedFile => inr (Some optimizedFile)
        | Rejected msg => inl msg
        | Pending => inr None
        end
      else
        inl "Unsupported file format. Please upload a JPG, JPEG, PNG, or GIF."
  end.
End Browser.

End ImageCompressor.

(** ** Stock rows, catalogs and their reconciliation *)

Module Reconciler.
Import JS ImageCompressor.

(** A row of the [category] or of the [warehouse] table. *)
Record Reference : Type := mkReference {
  ref_id : Z;
  ref_name : string
}.

(** The object attached to a fetched item: a catalog row, or the
    synthetic [{ id: null, name }]. *)
Record Attached : Type := mkAttached {
  att_id : option Z;
  att_name : string
}.

Definition of_reference (c : Reference) : Attached :=
  {| att_id := Some (ref_id c); att_name := ref_name c |}.

(** A row of the [stock] table; [category], [warehouse] and [thumbnail]
    are nullable text columns. *)
Record StockItem : Type := mkStockItem {
  item_id : Z;
  item_name : string;
  item_quantity : number;
  item_price : number;
  item_threshold : number;
  item_category : option string;
  item_warehouse : option string;
  item_thumbnail : option string
}.

(** The value of a [category_id]/[warehouse_id] form field: a number when
    it comes from a fetched item, a string when it comes from a [select]
    element or from the empty default. *)
Inductive formId : Type :=
| IdNumber (n : Z)
| IdString (s : string).

Definition truthy_formId (v : formId) : bool :=
  match v with
  | IdNumber n => negb (n =? 0)
  | IdString s => truthy_string s
  end.

(** [parseInt(v)]: a number is first converted to its decimal string, which
    [parseInt] reads back to the same integer. *)
Definition parseInt_formId (v : formId) : option Z :=
  match v with
  | IdNumber n => Some n
  | IdString s => parseInt s
  end.

(** [x === parseInt(v)] for a number [x]; [NaN] equals nothing. *)
Definition strict_eq_parsed (x : Z) (parsed : option Z) : bool :=
  match parsed with
  | Some n => x =? n
  | None => false
  end.

(** The item as [fetchInventory] publishes it:
    [{ ...item, category, warehouse, category_id, warehouse_id }]. *)
Record EnrichedStockItem : Type := mkEnriched {
  e_id : Z;
  e_name : string;
  e_quantity : number;
  e_price : number;
  e_threshold : number;
  e_thumbnail : option string;
  e_category : option Attached;
  e_warehouse : option Attached;
  e_category_id : formId;
  e_warehouse_id : formId
}.

(** [catalog.find(c => c.name === name)] *)
Definition find_by_name (catalog : list Reference) (name : string)
  : option Reference :=
  find (fun c => String.eqb (ref_name c) name) catalog.

(** [name ? catalog.find(c => c.name === name) || { id: null, name } : null] *)
Definition attach (catalog : list Reference) (name : option string)
  : option Attached :=
  match name with
  | Some n =>
      if truthy_string n then
        match find_by_name catalog n with
        | Some c => Some (of_reference c)
        | None => Some {| att_id := None; att_name := n |}
        end
      else None
  | None => None
  end.

(** [object?.id || ''] *)
Definition id_or_empty (object : option Attached) : formId :=
  match object with
  | Some o =>
      match att_id o with
      | Some n => if truthy_formId (IdNumber n) then IdNumber n else IdString ""
      | None => IdString ""
      end
  | None => IdString ""
  end.

(** The callback of [stockData.map] in [fetchInventory]. *)
Definition enhance (categories warehouses : list Reference)
  (item : StockItem) : EnrichedStockItem :=
  let category := attach categories (item_category item) in
  let warehouse := attach warehouses (item_warehouse item) in
  {| e_id := item_id item;
     e_name := item_name item;
     e_quantity := item_quantity item;
     e_price := item_price item;
     e_threshold := item_threshold item;
     e_thumbnail := item_thumbnail item;
     e_category := category;
     e_warehouse := warehouse;
     e_category_id := id_or_empty category;
     e_warehouse_id := id_or_empty warehouse |}.

(** The [newItem] and [editingItem] form objects; [newItem] has no [id]. *)
Record FormItem : Type := mkForm {
  form_id : option Z;
  form_name : string;
  form_category_id : formId;
  form_quantity : number;
  form_price : number;
  form_threshold : number;
  form_warehouse_id : formId;
  form_thumbnail : option string;
  form_file : option File
}.

Definition initialNewItem : FormItem :=
  {| form_id := None;
     form_name := "";
     form_category_id := IdString "";
     form_quantity := 0%float;
     form_price := 0%float;
     form_threshold := 10%float;
     form_warehouse_id := IdString "";
     form_thumbnail := Some "";
     form_file := None |}.

Definition openEditModal (item : EnrichedStockItem) : FormItem :=
  {| form_id := Some (e_id item);
     form_name := e_name item;
     form_category_id := e_category_id item;
     form_quantity := e_quantity item;
     form_price := e_price item;
     form_threshold := e_threshold item;
     form_warehouse_id := e_warehouse_id item;
     form_thumbnail := e_thumbnail item;
     form_file := None |}.

(** What a change handler writes under the computed key [[name]]. *)
Inductive fieldValue : Type :=
| NumberValue (x : number)
| StringValue (s : string).

(** [{ ...form, [name]: v }] for the seven names that the inputs of the two
    forms carry; no input has another name, and for another key the form
    is left as it is here. *)
Definition setField (form : FormItem) (name : string) (v : fieldValue)
  : FormItem :=
  let 'mkForm id nm cid q p t wid th f := form in
  match v with
  | NumberValue x =>
      if String.eqb name "quantity" then mkForm id nm cid x p t wid th f
      else if String.eqb name "price" then mkForm id nm cid q x t wid th f
      else if String.eqb name "threshold" then mkForm id nm cid q p x wid th f
      else form
  | StringValue s =>
      if String.eqb name "name" then mkForm id s cid q p t wid th f
      else if String.eqb name "category_id" then
        mkForm id nm (IdString s) q p t wid th f
      else if String.eqb name "warehouse_id" then
        mkForm id nm cid q p t (IdString s) th f
      else if String.eqb name "thumbnail" then
        mkForm id nm cid q p t wid (Some s) f
      else form
  end.

(** The rows written to the store ([insertData], [updateData]). [None] in
    [row_category]/[row_warehouse] means that the key is absent from the
    object; [row_thumbnail] is a nullable value. *)
Record StorageRow : Type := mkStorageRow {
  row_name : string;
  row_quantity : number;
  row_price : number;
  row_threshold : number;
  row_thumbnail : option string;
  row_category : option string;
  row_warehouse : option string
}.

(** [row.category = name] and [row.warehouse = name] *)
Definition set_category (row : StorageRow) (name : string) : StorageRow :=
  let 'mkStorageRow n q p t th _ w := row in
  mkStorageRow n q p t th (Some name) w.

Definition set_warehouse (row : StorageRow) (name : string) : StorageRow :=
  let 'mkStorageRow n q p t th c _ := row in
  mkStorageRow n q p t th c (Some name).

(** The request of [saveEditedItem]: [update(updateData).eq('id', id)]. *)
Record UpdateRequest : Type := mkUpdate {
  update_target : option Z;
  update_data : StorageRow
}.

(** [form[name]] and [row[name]] for the three numeric input names. *)
Definition numericField (form : FormItem) (name : string) : number :=
  if String.eqb name "quantity" then form_quantity form
  else if String.eqb name "price" then form_price form
  else form_threshold form.

Definition numericColumn (row : StorageRow) (name : string) : number :=
  if String.eqb name "quantity" then row_quantity row
  else if String.eqb name "price" then row_price row
  else row_threshold row.

Definition find_by_id (catalog : list Reference) (v : formId)
  : option Reference :=
  find (fun c => strict_eq_parsed (ref_id c) (parseInt_formId v)) catalog.

Section Page.
(** [parseFloat] of the runtime, and the upload of a file to the blob
    store, which gives the public URL or fails with a message. *)
Variable parseFloat : string -> number.
Variable uploadImage : File -> string + string.

Definition is_numeric_field (name : string) : bool :=
  String.eqb name "quantity" || String.eqb name "price"
  || String.eqb name "threshold".

Definition handleInputChange (newItem : FormItem) (name value : string)
  : FormItem :=
  setField newItem name
    (if is_numeric_field name
     then NumberValue (or_number (parseFloat value) 0%float)
     else StringValue value).

Definition handleEditChange (editingItem : FormItem) (name value : string)
  : FormItem :=
  setField editingItem name
    (if is_numeric_field name
     then NumberValue (or_number (parseFloat value) 0%float)
     else StringValue value).

(** [insertData] of [addItem], once the thumbnail URL is known. *)
Definition insertData (categories warehouses : list Reference)
  (newItem : FormItem) (thumbnailUrl : option string) : StorageRow :=
  let insertData :=
    {| row_name := form_name newItem;
       row_quantity := form_quantity newItem;
       row_price := form_price newItem;
       row_threshold := form_threshold newItem;
       row_thumbnail := thumbnailUrl;
       row_category := None;
       row_warehouse := None |} in
  let insertData :=
    if truthy_formId (form_category_id newItem) then
      match find_by_id categories (form_category_id newItem) with
      | Some selectedCategory =>
          set_category insertData (ref_name selectedCategory)
      | None => insertData
      end
    else insertData in
  if truthy_formId (form_warehouse_id newItem) then
    match find_by_id warehouses (form_warehouse_id newItem) with
    | Some selectedWarehouse =>
        set_warehouse insertData (ref_name selectedWarehouse)
    | None => insertData
    end
  else insertData.

(** [updateData] of [saveEditedItem], once the thumbnail URL is known. *)
Definition updateData (categories warehouses : list Reference)
  (editingItem : FormItem) (thumbnailUrl : option string) : StorageRow :=
  let updateData :=
    {| row_name := form_name editingItem;
       row_quantity := form_quantity editingItem;
       row_price := form_price editingItem;
       row_threshold := form_threshold editingItem;
       row_thumbnail := thumbnailUrl;
       row_category := None;
       row_warehouse := None |} in
  let updateData :=
    if truthy_formId (form_category_id editingItem) then
      match find_by_id categories (form_category_id editingItem) with
      | Some selectedCategory =>
          set_category updateData (ref_name selectedCategory)
      | None => updateData
      end
    else updateData in
  if truthy_formId (form_warehouse_id editingItem) then
    match find_by_id warehouses (form_warehouse_id editingItem) with
    | Some selectedWarehouse =>
        set_warehouse updateData (ref_name selectedWarehouse)
    | None => updateData
    end
  else updateData.

(** [thumbnailUrl]: the form's URL, replaced by the uploaded file's
    public URL when a file is attached; an upload failure is thrown. *)
Definition thumbnailUrl_of (form : FormItem) : string + option string :=
  match form_file form with
  | Some file =>
      match uploadImage file with
      | inl msg => inl msg
      | inr url => inr (Some url)
      end
  | None => inr (form_thumbnail form)
  end.

(** [addItem] up to its insert request; [inl] is the caught error. *)
Definition addItem (categories warehouses : list Reference)
  (newItem : FormItem) : string + StorageRow :=
  match thumbnailUrl_of newItem with
  | inl msg => inl msg
  | inr thumbnailUrl =>
      inr (insertData categories warehouses newItem thumbnailUrl)
  end.

(** [saveEditedItem] up to its update request. *)
Definition saveEditedItem (categories warehouses : list Reference)
  (editingItem : FormItem) : string + UpdateRequest :=
  match thumbnailUrl_of editingItem with
  | inl msg => inl msg
  | inr thumbnailUrl =>
      inr {| update_target := form_id editingItem;
             update_data :=
               updateData categories warehouses editingItem thumbnailUrl |}
  end.
End Page.

(** The status badge of the inventory table. *)
Inductive StockStatus : Type := LowStock | InStock.

Definition stockStatus (quantity threshold : number) : StockStatus :=
  if (quantity <=? threshold)%float then LowStock else InStock.

Definition statusLabel (s : StockStatus) : string :=
  match s with
  | LowStock => "Low Stock"
  | InStock => "In Stock"
  end.

Definition badge (item : EnrichedStockItem) : string :=
  statusLabel (stockStatus (e_quantity item) (e_threshold item)).

(** The fields of a stored row as an update request would carry them. *)
Definition request_of_row (row : StockItem) : UpdateRequest :=
  {| update_target := Some (item_id row);
     update_data :=
       {| row_name := item_name row;
          row_quantity := item_quantity row;
          row_price := item_price row;
          row_threshold := item_threshold row;
          row_thumbnail := item_thumbnail row;
          row_category := item_category row;
          row_warehouse := item_warehouse row |} |}.

End Reconciler.

(** ** The page state, the paginated fetch and the event handlers *)

Module Page.
Import JS Reconciler.

(** The [useState] cells of [InventoryPage] that the data logic uses. *)
Record PageState : Type := mkPage {
  items : list EnrichedStockItem;
  categories : list Reference;
  warehouses : list Reference;
  loading : bool;
  currentPage : Z;
  itemsPerPage : Z;
  totalItems : Z;
  searchTerm : string;
  filterCategory : string;
  filterWarehouse : string;
  error : option string
}.

Definition initialState : PageState :=
  {| items := []; categories := []; warehouses := []; loading := true;
     currentPage := 1; itemsPerPage := 10; totalItems := 0;
     searchTerm := ""; filterCategory := ""; filterWarehouse := "";
     error := None |}.

Definition setItems (st : PageState) (v : list EnrichedStockItem) :=
  let 'mkPage _ cs ws l p s t q fc fw e := st in mkPage v cs ws l p s t q fc fw e.

Definition setLoading (st : PageState) (v : bool) :=
  let 'mkPage i cs ws _ p s t q fc fw e := st in mkPage i cs ws v p s t q fc fw e.

Definition setCurrentPage (st : PageState) (v : Z) :=
  let 'mkPage i cs ws l _ s t q fc fw e := st in mkPage i cs ws l v s t q fc fw e.

Definition setTotalItems (st : PageState) (v : Z) :=
  let 'mkPage i cs ws l p s _ q fc fw e := st in mkPage i cs ws l p s v q fc fw e.

Definition setSearchTerm (st : PageState) (v : string) :=
  let 'mkPage i cs ws l p s t _ fc fw e := st in mkPage i cs ws l p s t v fc fw e.

Definition setFilterCategory (st : PageState) (v : string) :=
  let 'mkPage i cs ws l p s t q _ fw e := st in mkPage i cs ws l p s t q v fw e.

Definition setFilterWarehouse (st : PageState) (v : string) :=
  let 'mkPage i cs ws l p s t q fc _ e := st in mkPage i cs ws l p s t q fc v e.

Definition setError (st : PageState) (v : option string) :=
  let 'mkPage i cs ws l p s t q fc fw _ := st in mkPage i cs ws l p s t q fc fw v.

(** The read that [fetchInventory] sends: the optional [ilike] pattern on
    the name, the optional [eq] filters, and the inclusive [range]; the
    order is always by name and the exact count is always asked for. *)
Record SelectRequest : Type := mkSelect {
  req_ilike : option string;
  req_category : option string;
  req_warehouse : option string;
  req_from : Z;
  req_to : Z
}.

Record SelectResponse : Type := mkResponse {
  resp_data : option (list StockItem);
  resp_error : option string;
  resp_count : option Z
}.

Definition buildRequest (st : PageState) : SelectRequest :=
  let from := (currentPage st - 1) * itemsPerPage st in
  let to := from + itemsPerPage st - 1 in
  {| req_ilike :=
       if truthy_string (searchTerm st)
       then Some ("%" ++ searchTerm st ++ "%")%string else None;
     req_category :=
       if truthy_string (filterCategory st)
       then Some (filterCategory st) else None;
     req_warehouse :=
       if truthy_string (filterWarehouse st)
       then Some (filterWarehouse st) else None;
     req_from := from;
     req_to := to |}.

(** [count || 0] *)
Definition count_or_zero (count : option Z) : Z :=
  match count with
  | Some n => if n =? 0 then 0 else n
  | None => 0
  end.

Section Remote.
(** The table read of the remote store. *)
Variable select : SelectRequest -> SelectResponse.

Definition fetchInventory (st : PageState) : PageState :=
  let st := setLoading st true in
  let response := select (buildRequest st) in
  match resp_error response with
  | Some message => setLoading (setError st (Some message)) false
  | None =>
      let st := setTotalItems st (count_or_zero (resp_count response)) in
      let st :=
        match resp_data response with
        | Some stockData =>
            setItems st (map (enhance (categories st) (warehouses st)) stockData)
        | None => setItems st []
        end in
      setLoading st false
  end.
End Remote.

(** [Math.ceil(totalItems / itemsPerPage)] *)
Definition totalPages (st : PageState) : Z :=
  Qceiling (inject_Z (totalItems st) / inject_Z (itemsPerPage st)).

Definition changePage (st : PageState) (page : Z) : PageState :=
  if (page <? 1) || (totalPages st <? page) then st
  else setCurrentPage st page.

Definition handleSearchChange (st : PageState) (value : string) : PageState :=
  setCurrentPage (setSearchTerm st value) 1.

(** The [onChange] of the two filter [select] elements. *)
Definition onFilterCategoryChange (st : PageState) (value : string) :=
  setCurrentPage (setFilterCategory st value) 1.

Definition onFilterWarehouseChange (st : PageState) (value : string) :=
  setCurrentPage (setFilterWarehouse st value) 1.

(** The user actions that touch the query. *)
Inductive Action : Type :=
| SearchInput (value : string)
| CategorySelect (value : string)
| WarehouseSelect (value : string)
| PageClick (page : Z).

Definition handle (st : PageState) (a : Action) : PageState :=
  match a with
  | SearchInput value => handleSearchChange st value
  | CategorySelect value => onFilterCategoryChange st value
  | WarehouseSelect value => onFilterWarehouseChange st value
  | PageClick page => changePage st page
  end.

Definition is_filter_action (a : Action) : bool :=
  match a with
  | PageClick _ => false
  | _ => true
  end.

End Page.

(** ** The remote stock table *)

Module Store.
Import JS Reconciler Page.

Definition lower (c : ascii) : ascii :=
  let n := nat_of_ascii c in
  if (65 <=? n)%nat && (n <=? 90)%nat then ascii_of_nat (n + 32) else c.

(** [s ILIKE pattern]: [%] matches any run of characters, [_] any one
    character, letters match whatever their case. *)
Fixpoint ilike (pattern s : string) : bool :=
  match pattern with
  | EmptyString => match s with EmptyString => true | _ => false end
  | String "%" rest =>
      (fix skip (s : string) : bool :=
         ilike rest s
         || match s with
            | String _ s' => skip s'
            | EmptyString => false
            end) s
  | String "_" rest =>
      match s with
      | String _ s' => ilike rest s'
      | EmptyString => false
      end
  | String c rest =>
      match s with
      | String d s' => Ascii.eqb (lower c) (lower d) && ilike rest s'
      | EmptyString => false
      end
  end.

Definition eq_column (filter : option string) (column : option string) : bool :=
  match filter with
  | None => true
  | Some v =>
      match column with
      | Some c => String.eqb c v
      | None => false
      end
  end.

Definition matches (req : SelectRequest) (row : StockItem) : bool :=
  match req_ilike req with
  | Some pattern => ilike pattern (item_name row)
  | None => true
  end
  && eq_column (req_category req) (item_category row)
  && eq_column (req_warehouse req) (item_warehouse row).

Fixpoint insert_by_name (row : StockItem) (sorted : list StockItem)
  : list StockItem :=
  match sorted with
  | [] => [row]
  | r :: rest =>
      if String.leb (item_name row) (item_name r) then row :: sorted
      else r :: insert_by_name row rest
  end.

Definition order_by_name (rows : list StockItem) : list StockItem :=
  fold_right insert_by_name [] rows.

(** The rows at the zero-based offsets [from] to [to], both included. *)
Definition range (from to : Z) (rows : list StockItem) : list StockItem :=
  firstn (Z.to_nat (to - from + 1)) (skipn (Z.to_nat from) rows).

(** Modelled from the spec: the table read of the remote store, which is not
    part of the repository (spec 4.3 and 6): the rows that satisfy the
    predicate, ordered by name ascending, cut to the inclusive offset
    window, an empty list (not an error) when the window lies beyond the
    rows, together with the count of the rows that satisfy the predicate. *)
Definition select (table : list StockItem) (req : SelectRequest)
  : SelectResponse :=
  let matching := filter (matches req) table in
  {| resp_data := Some (range (req_from req) (req_to req)
                          (order_by_name matching));
     resp_error := None;
     resp_count := Some (Z.of_nat (List.length matching)) |}.

End Store.

(** ** Effects and the debounce timer *)

Module Effects.
Import JS Reconciler Page.

(** Which effect called [fetchInventory]: the [loadData] effect, or the
    timeout set by the delayed-search effect. *)
Inductive Origin : Type := LoadData | DelaySearch.

(** The page between two events: its state, the due time of the pending
    [delaySearch] timeout if there is one, and the calls of [fetchInventory]
    so far (latest first), each with the time in milliseconds at which its
    effect or timeout ran.  What a fetch publishes (items, total, loading,
    error) is in neither dependency array and is left out. *)
Record Runtime : Type := mkRuntime {
  page : PageState;
  pendingTimer : option Z;
  fetchLog : list (Z * Origin)
}.

(** Dependency arrays: [[currentPage, searchTerm, filterCategory,
    filterWarehouse]] and [[searchTerm, filterCategory, filterWarehouse]]. *)
Definition filters_changed (old new : PageState) : bool :=
  negb (String.eqb (searchTerm old) (searchTerm new)
        && String.eqb (filterCategory old) (filterCategory new)
        && String.eqb (filterWarehouse old) (filterWarehouse new)).

Definition loadData_deps_changed (old new : PageState) : bool :=
  negb (currentPage old =? currentPage new) || filters_changed old new.

Definition delaySearch_deps_changed (old new : PageState) : bool :=
  filters_changed old new.

(** The timeout fires once its delay has elapsed: [fetchInventory] is
    called at the due time. *)
Definition advance (t : Z) (rt : Runtime) : Runtime :=
  match pendingTimer rt with
  | Some due =>
      if due <=? t
      then {| page := page rt; pendingTimer := None;
              fetchLog := (due, DelaySearch) :: fetchLog rt |}
      else rt
  | None => rt
  end.

(** After the render that follows a state change at time [t], the effects
    whose dependencies changed run: [loadData] calls [fetchInventory];
    the delayed search clears its previous timeout (the cleanup) and sets a
    new one for 500ms later. *)
Definition commit (t : Z) (old new : PageState) (rt : Runtime) : Runtime :=
  let log :=
    if loadData_deps_changed old new
    then (t, LoadData) :: fetchLog rt else fetchLog rt in
  let timer :=
    if delaySearch_deps_changed old new
    then Some (t + 500) else pendingTimer rt in
  {| page := new; pendingTimer := timer; fetchLog := log |}.

Definition dispatch (rt : Runtime) (event : Z * Action) : Runtime :=
  let '(t, a) := event in
  let rt := advance t rt in
  commit t (page rt) (handle (page rt) a) rt.

Definition run (events : list (Z * Action)) (rt : Runtime) : Runtime :=
  fold_left dispatch events rt.

(** A page at rest: no timeout pending, nothing fetched yet. *)
Definition idle (st : PageState) : Runtime :=
  {| page := st; pendingTimer := None; fetchLog := [] |}.

Definition calls (o : Origin) (rt : Runtime) : list Z :=
  map fst
    (filter (fun c => match snd c, o with
                      | LoadData, LoadData | DelaySearch, DelaySearch => true
                      | _, _ => false
                      end)
       (rev (fetchLog rt))).

End Effects.

(** ** Sample data used in examples *)

Module Samples.
Import JS ImageCompressor Reconciler.

(** A 150000-byte file, as a 200x200 PNG of noise would be. *)
Definition smallNoisyImage : File :=
  {| file_name := "noise.png";
     file_type := "image/png";
     file_bytes := List.repeat Byte.x2a (Z.to_nat 150000);
     file_lastModified := 0 |}.

Definition categories : list Reference :=
  [mkReference 1 "Hardware"; mkReference 2 "Tools"].

Definition warehouses : list Reference :=
  [mkReference 1 "Main"; mkReference 4 "Annex"].

(** A catalog in which two entries share an identifier. *)
Definition clashingCategories : list Reference :=
  [mkReference 2 "Hardware"; mkReference 2 "Tools"].

(** A catalog whose only entry has identifier 0. *)
Definition zeroCategories : list Reference := [mkReference 0 "Tools"].

Definition hammer : StockItem :=
  mkStockItem 7 "Hammer" 5%float 12500%float 10%float
    (Some "Tools") (Some "Main") None.

(** A row with an orphaned category name and no warehouse. *)
Definition crate : StockItem :=
  mkStockItem 8 "Crate" 11%float 300%float 10%float
    (Some "Retired") None (Some "https://cdn.example/crate.jpg").

Definition offline : File -> string + string :=
  fun _ => inl "upload failed".

Definition notANumber : string -> number := fun _ => PrimFloat.nan.

Definition stock : list StockItem :=
  [hammer; crate;
   mkStockItem 9 "Anvil" 2%float 90000%float 1%float
     (Some "Tools") (Some "Annex") None].

(** The page on its second page of ten, with the catalogs loaded. *)
Definition secondPage : Page.PageState :=
  Page.mkPage [] categories warehouses false 2 10 3 "" "" "" None.

(** Five keystrokes, 100ms apart. *)
Definition typing : list (Z * Page.Action) :=
  [(0, Page.SearchInput "s"); (100, Page.SearchInput "sc");
   (200, Page.SearchInput "scr"); (300, Page.SearchInput "scre");
   (400, Page.SearchInput "screw")].
End Samples.

(** ** Number to string *)

Module Conversions.
Import JS.

(** [String(n)] for an integer [n]: its decimal digits, with a leading
    minus sign when it is negative.  This is what an [option] element's
    [value={category.id}] hands back as [e.target.value]. *)
Definition toString (n : Z) : string := NilZero.string_of_int (Z.to_int n).

(** The value of a run of decimal digits read from the left, continuing
    from [acc]. *)
Fixpoint uint_value (d : Decimal.uint) (acc : Z) : Z :=
  match d with
  | Decimal.Nil => acc
  | Decimal.D0 d => uint_value d (acc * 10 + 0)
  | Decimal.D1 d => uint_value d (acc * 10 + 1)
  | Decimal.D2 d => uint_value d (acc * 10 + 2)
  | Decimal.D3 d => uint_value d (acc * 10 + 3)
  | Decimal.D4 d => uint_value d (acc * 10 + 4)
  | Decimal.D5 d => uint_value d (acc * 10 + 5)
  | Decimal.D6 d => uint_value d (acc * 10 + 6)
  | Decimal.D7 d => uint_value d (acc * 10 + 7)
  | Decimal.D8 d => uint_value d (acc * 10 + 8)
  | Decimal.D9 d => uint_value d (acc * 10 + 9)
  end.

End Conversions.

(** ** What the inventory table and its pager display *)

Module View.
Import JS Reconciler Page.

(** The number on the [i]-th page button (from 0). *)
Definition pageNumber (currentPage totalPages i : Z) : Z :=
  if totalPages <=? 5 then i + 1
  else if currentPage <=? 3 then i + 1
  else if totalPages - 2 <=? currentPage then totalPages - 4 + i
  else currentPage - 2 + i.

(** [[...Array(Math.min(5, totalPages))].map((_, i) => pageNumber)];
    [totalPages] is never negative, [totalItems] being a row count. *)
Definition pageNumbers (st : PageState) : list Z :=
  map (fun i => pageNumber (currentPage st) (totalPages st) (Z.of_nat i))
    (seq 0 (Z.to_nat (Z.min 5 (totalPages st)))).

(** The buttons of the pager and what their [onClick] does. *)
Inductive PagerButton : Type :=
| Previous
| Next
| Number (pageNumber : Z).

Definition disabled (st : PageState) (b : PagerButton) : bool :=
  match b with
  | Previous => currentPage st =? 1
  | Next => currentPage st =? totalPages st
  | Number _ => false
  end.

Definition onClick (st : PageState) (b : PagerButton) : PageState :=
  match b with
  | Previous => changePage st (currentPage st - 1)
  | Next => changePage st (currentPage st + 1)
  | Number pageNumber => changePage st pageNumber
  end.

(** "Showing [showingFrom] to [showingTo] of [totalItems] results" *)
Definition showingFrom (st : PageState) : Z :=
  if (0 <? List.length (items st))%nat
  then (currentPage st - 1) * itemsPerPage st + 1 else 0.

Definition showingTo (st : PageState) : Z :=
  Z.min (currentPage st * itemsPerPage st) (totalItems st).

(** [object?.name || fallback] *)
Definition name_or (object : option Attached) (fallback : string) : string :=
  match object with
  | Some o => if truthy_string (att_name o) then att_name o else fallback
  | None => fallback
  end.

Definition categoryCell (item : EnrichedStockItem) : string :=
  name_or (e_category item) "N/A".

Definition warehouseCell (item : EnrichedStockItem) : string :=
  name_or (e_warehouse item) "Main".

(** *** [encodeURIComponent]

    Strings are sequences of UTF-8 bytes; [encodeURIComponent] keeps the
    unreserved ASCII characters and writes every other byte of the UTF-8
    encoding as [%XX] with upper-case hexadecimal digits. *)

Definition unreserved (c : ascii) : bool :=
  let n := nat_of_ascii c in
  ((65 <=? n) && (n <=? 90) || (97 <=? n) && (n <=? 122)
   || (48 <=? n) && (n <=? 57))%nat
  || existsb (Ascii.eqb c)
       ["-"; "_"; "."; "!"; "~"; "*"; "'"; "("; ")"]%char.

Definition hexDigit (n : nat) : ascii :=
  if (n <? 10)%nat then ascii_of_nat (48 + n) else ascii_of_nat (55 + n).

Fixpoint encodeURIComponent (s : string) : string :=
  match s with
  | EmptyString => EmptyString
  | String c rest =>
      if unreserved c then String c (encodeURIComponent rest)
      else
        let n := nat_of_ascii c in
        String "%"
          (String (hexDigit (n / 16))
             (String (hexDigit (n mod 16)) (encodeURIComponent rest)))
  end.

Definition getPlaceholderImage (name : string) : string :=
  ("https://ui-avatars.com/api/?name=" ++ encodeURIComponent name
     ++ "&background=random&color=fff&size=128")%string.

End View.

(** ** Upload of the attached image *)

Module Upload.
Import JS ImageCompressor.

(** [s.split('.')]: the segments between the dots, at least one. *)
Fixpoint split_dot (s : string) : list string :=
  match s with
  | EmptyString => [EmptyString]
  | String c rest =>
      if Ascii.eqb c "." then EmptyString :: split_dot rest
      else
        match split_dot rest with
        | segment :: segments => String c segment :: segments
        | [] => [String c EmptyString]
        end
  end.

(** [file.name.split('.').pop()] *)
Definition fileExt (name : string) : string :=
  List.last (split_dot name) EmptyString.

Section Storage.
(** The identifier drawn by [uuidv4] for this upload, the upload to the
    [stock] bucket (its error message, if any) and the public URL of a
    path. *)
Variable uuid : string.
Variable storageUpload : string -> File -> option string.
Variable getPublicUrl : string -> string.

Definition filePath (file : File) : string :=
  (uuid ++ "." ++ fileExt (file_name file))%string.

(** [uploadImage] for a file that is there: the public URL, or the thrown
    error. *)
Definition uploadFile (file : File) : string + string :=
  match storageUpload (filePath file) file with
  | Some message => inl message
  | None => inr (getPublicUrl (filePath file))
  end.

(** [uploadImage(file)]: [null] when there is no file. *)
Definition uploadImage (file : option File) : string + option string :=
  match file with
  | None => inr None
  | Some file =>
      match uploadFile file with
      | inl message => inl message
      | inr url => inr (Some url)
      end
  end.
End Storage.

Definition contains_dot (s : string) : bool :=
  existsb (Ascii.eqb ".") (list_ascii_of_string s).

End Upload.

(** ** Loading and extending the catalogs *)

Module Catalog.
Import JS Reconciler Page.

Definition setCategories (st : PageState) (v : list Reference) :=
  let 'mkPage i _ ws l p s t q fc fw e := st in mkPage i v ws l p s t q fc fw e.

Definition setWarehouses (st : PageState) (v : list Reference) :=
  let 'mkPage i cs _ l p s t q fc fw e := st in mkPage i cs v l p s t q fc fw e.

(** The answer of a read of, or of an insert into, a catalog table. *)
Record CatalogResponse : Type := mkCatalogResponse {
  cat_data : option (list Reference);
  cat_error : option string
}.

(** [data || []] *)
Definition data_or_empty (data : option (list Reference)) : list Reference :=
  match data with
  | Some rows => rows
  | None => []
  end.

Definition fetchCategories (response : CatalogResponse) (st : PageState)
  : PageState :=
  match cat_error response with
  | Some message => setError st (Some message)
  | None => setCategories st (data_or_empty (cat_data response))
  end.

Definition fetchWarehouses (response : CatalogResponse) (st : PageState)
  : PageState :=
  match cat_error response with
  | Some message => setError st (Some message)
  | None => setWarehouses st (data_or_empty (cat_data response))
  end.

(** [fetchInventory] as a closure: what it reads (the query, the page and
    the catalogs) is the state of the render that created it, [closure];
    what it sets lands on the state as it is by then, [current]. *)
Definition fetchInventoryFrom (select : SelectRequest -> SelectResponse)
  (closure current : PageState) : PageState :=
  let current := setLoading current true in
  let response := select (buildRequest closure) in
  match resp_error response with
  | Some message => setLoading (setError current (Some message)) false
  | None =>
      let current :=
        setTotalItems current (count_or_zero (resp_count response)) in
      let current :=
        match resp_data response with
        | Some stockData =>
            setItems current
              (map (enhance (categories closure) (warehouses closure))
                 stockData)
        | None => setItems current []
        end in
      setLoading current false
  end.

(** [loadData] of the first effect, run by the render whose state is
    [render]: the two catalog reads, then the inventory fetch. *)
Definition loadData (categoryRead warehouseRead : CatalogResponse)
  (select : SelectRequest -> SelectResponse) (render : PageState)
  : PageState :=
  let current := fetchCategories categoryRead render in
  let current := fetchWarehouses warehouseRead current in
  fetchInventoryFrom select render current.

(** The "new category" and "new warehouse" dialogs: the typed name and
    whether the dialog is open. *)
Record Dialog : Type := mkDialog {
  dialog_name : string;
  dialog_open : bool
}.

(** [addCategory]; [insert] is the store's insert of [{ name }] followed by
    [select()]: the created rows, or the error message. *)
Definition addCategory (insert : string -> string + list Reference)
  (st : PageState) (dialog : Dialog) : PageState * Dialog :=
  match insert (dialog_name dialog) with
  | inl message => (setError st (Some message), dialog)
  | inr data =>
      (setCategories st (categories st ++ data),
       {| dialog_name := ""; dialog_open := false |})
  end.

Definition addWarehouse (insert : string -> string + list Reference)
  (st : PageState) (dialog : Dialog) : PageState * Dialog :=
  match insert (dialog_name dialog) with
  | inl message => (setError st (Some message), dialog)
  | inr data =>
      (setWarehouses st (warehouses st ++ data),
       {| dialog_name := ""; dialog_open := false |})
  end.

End Catalog.

(** ** The page over time *)

Module Lifecycle.
Import JS Reconciler Page Effects.

(** On mount both effects run: [loadData] fetches and the delayed search
    sets its first timeout. *)
Definition mount (t : Z) (st : PageState) : Runtime :=
  {| page := st; pendingTimer := Some (t + 500);
     fetchLog := [(t, LoadData)] |}.

(** A burst of filter changes: every event comes less than 500ms after the
    previous one (after [last] for the first) and changes the search term
    or a filter. *)
Fixpoint burst (st : PageState) (last : Z) (events : list (Z * Action))
  : Prop :=
  match events with
  | [] => True
  | (t, a) :: rest =>
      last <= t < last + 500
      /\ filters_changed st (handle st a) = true
      /\ burst (handle st a) t rest
  end.

(** The time of the last event, [first] when there is none. *)
Definition lastTime (first : Z) (events : list (Z * Action)) : Z :=
  fold_left (fun _ e => fst e) events first.

(** The state after the handlers of all the events have run. *)
Definition handleAll (st : PageState) (events : list (Z * Action))
  : PageState :=
  fold_left (fun s e => handle s (snd e)) events st.

(** The states the page can be in: the initial one, and those reached by
    a user action on the query, by a fetch of the inventory, or by a
    refresh or an extension of the catalogs. *)
Inductive reachable : PageState -> Prop :=
| reach_initial : reachable initialState
| reach_action st a : reachable st -> reachable (handle st a)
| reach_fetch st select closure :
    reachable st -> reachable closure ->
    reachable (Catalog.fetchInventoryFrom select closure st)
| reach_categories st response :
    reachable st -> reachable (Catalog.fetchCategories response st)
| reach_warehouses st response :
    reachable st -> reachable (Catalog.fetchWarehouses response st)
| reach_addCategory st insert dialog :
    reachable st -> reachable (fst (Catalog.addCategory insert st dialog))
| reach_addWarehouse st insert dialog :
    reachable st -> reachable (fst (Catalog.addWarehouse insert st dialog)).

End Lifecycle.

(** ** Sequences of edits, and scenes used in examples *)

Module Forms.
Import JS Reconciler.

(** The [name] attributes of the inputs of the two item forms. *)
Definition inputNames : list string :=
  ["name"; "category_id"; "quantity"; "price"; "threshold"; "warehouse_id";
   "thumbnail"].

(** A series of [onChange] events on the edit form, each with the name of
    its input and the value typed or chosen. *)
Definition editAll (parseFloat : string -> number) (form : FormItem)
  (edits : list (string * string)) : FormItem :=
  fold_left (fun f e => handleEditChange parseFloat f (fst e) (snd e))
    edits form.

End Forms.

Module Scenes.
Import JS ImageCompressor Reconciler Page.

(** Page 5 of 8: 73 rows, ten per page. *)
Definition fifthOfEight : PageState :=
  mkPage [] Samples.categories Samples.warehouses false 5 10 73 "" "" "" None.

(** The first page of the sample stock, two rows per page. *)
Definition pairs : PageState :=
  mkPage [] Samples.categories Samples.warehouses false 1 2 0 "" "" "" None.

Definition failing : SelectRequest -> SelectResponse :=
  fun _ => mkResponse None (Some "network down") None.

Definition photo : File :=
  mkFile "beach.holiday.png" "image/png" [Byte.x2a; Byte.x2a; Byte.x2a] 0.

(** The hammer's edit form with a thumbnail URL typed in and a file
    attached. *)
Definition withPhoto : FormItem :=
  mkForm (Some 7) "Hammer" (IdNumber 2) 5%float 12500%float 10%float
    (IdNumber 1) (Some "https://typed.example/hammer.jpg") (Some photo).

Definition accepting : string -> File -> option string := fun _ _ => None.

Definition cdn : string -> string :=
  fun path => ("https://cdn.example/" ++ path)%string.

Definition serverCategories : Catalog.CatalogResponse :=
  Catalog.mkCatalogResponse (Some Samples.categories) None.

Definition brokenRead : Catalog.CatalogResponse :=
  Catalog.mkCatalogResponse None (Some "permission denied").

Definition serverWarehouses : Catalog.CatalogResponse :=
  Catalog.mkCatalogResponse (Some Samples.warehouses) None.

Definition createGarden : string -> string + list Reference :=
  fun name => inr [mkReference 3 name].

End Scenes.

(** ** What the user asks for, and what the store keeps *)

Module Meaning.
Import JS Reconciler Page.

(** The values the page puts in [category_id] and [warehouse_id] for the
    identifier [n]: the number itself, taken from a fetched item (never 0,
    which [|| ''] turns into the empty string), or its decimal string,
    handed over by a [select] element. *)
Definition holds_id (v : formId) (n : Z) : Prop :=
  (v = IdNumber n /\ n <> 0) \/ v = IdString (Conversions.toString n).

Definition is_letter (c : ascii) : bool :=
  let n := nat_of_ascii c in
  ((65 <=? n) && (n <=? 90) || (97 <=? n) && (n <=? 122))%nat.

(** The rows the user asks for (spec 4.3): the name matches the typed term
    as the pattern [%term%] without regard to case, when a term is typed;
    the category is the chosen one, when one is chosen; the warehouse is
    the chosen one, when one is chosen. *)
Definition wanted (st : PageState) (row : StockItem) : bool :=
  (String.eqb (searchTerm st) ""
   || Store.ilike ("%" ++ searchTerm st ++ "%")%string (item_name row))
  && (String.eqb (filterCategory st) ""
      || match item_category row with
         | Some c => String.eqb c (filterCategory st)
         | None => false
         end)
  && (String.eqb (filterWarehouse st) ""
      || match item_warehouse row with
         | Some w => String.eqb w (filterWarehouse st)
         | None => false
         end).

(** [t] is at the start of [s], letters compared without regard to case. *)
Fixpoint ci_prefix (t s : string) : bool :=
  match t with
  | EmptyString => true
  | String c t' =>
      match s with
      | String d s' => Ascii.eqb (Store.lower c) (Store.lower d) && ci_prefix t' s'
      | EmptyString => false
      end
  end.

(** [t] occurs somewhere in [s], without regard to case. *)
Fixpoint contains_ci (t s : string) : bool :=
  ci_prefix t s
  || match s with
     | String _ s' => contains_ci t s'
     | EmptyString => false
     end.

(** A term without the characters that a pattern reads specially. *)
Definition plain_char (c : ascii) : bool :=
  negb (Ascii.eqb c "%" || Ascii.eqb c "_" || Ascii.eqb c "\").

Definition plain (t : string) : bool :=
  forallb plain_char (list_ascii_of_string t).

End Meaning.

Module Writes.
Import JS Reconciler.

(** A stored row after the keys of a partial row have been written to it:
    [name], [quantity], [price], [threshold] and [thumbnail] are always
    among the keys; [category] and [warehouse] are written when present
    and kept otherwise. *)
Definition patch (row : StockItem) (data : StorageRow) : StockItem :=
  {| item_id := item_id row;
     item_name := row_name data;
     item_quantity := row_quantity data;
     item_price := row_price data;
     item_threshold := row_threshold data;
     item_category :=
       match row_category data with
       | Some name => Some name
       | None => item_category row
       end;
     item_warehouse :=
       match row_warehouse data with
       | Some name => Some name
       | None => item_warehouse row
       end;
     item_thumbnail := row_thumbnail data |}.

(** Modelled from the spec: the table write of the remote store, which is
    not part of the repository (spec 6, [update(id, partialRow)]): the row
    with the given id takes the values of the keys of the partial row and
    keeps its other columns; the other rows are left alone. *)
Definition update (table : list StockItem) (request : UpdateRequest)
  : list StockItem :=
  map (fun row =>
         match update_target request with
         | Some id => if item_id row =? id then patch row (update_data request)
                      else row
         | None => row
         end) table.

End Writes.

(** * Properties *)

Section ImageCompressorFacts.
Import JS ImageCompressor.

(** C1: a file whose size is at most [MAX_FILE_SIZE] (100KB) is resolved
    as it is: [optimizeImage] returns the very same file, with the same
    name, type and bytes, whatever the decoder and the encoder would do;
    when its type is a supported one, that file is what [handleFileChange]
    puts on the form. *)
Theorem optimizeImage_identity_under_budget :
  forall decodeImage toBlob now (file : File),
    size file <= MAX_FILE_SIZE ->
    optimizeImage decodeImage toBlob now (Some file) = Resolved file
    /\ (existsb (String.eqb (file_type file)) SUPPORTED_FORMATS = true ->
        handleFileChange decodeImage toBlob now (Some file)
        = inr (Some file)).
Proof.
  intros decodeImage toBlob now file Hsize.
  assert (H : optimizeImage decodeImage toBlob now (Some file)
              = Resolved file).
  { unfold optimizeImage.
    destruct (Z.ltb_spec MAX_FILE_SIZE (size file)) as [Hgt | _].
    - lia.
    - reflexivity. }
  split; [exact H |].
  intros Hfmt. unfold handleFileChange. rewrite Hfmt, H. reflexivity.
Qed.

Lemma maxDimension_value : maxDimension = 470.30203061437021%float.
Proof. vm_compute. reflexivity. Qed.

(** In the landscape branch the width becomes [maxDimension] and the
    height is that width divided by the original aspect ratio. *)
Lemma targetDimensions_landscape (w h : number) :
  (h <? w)%float = true ->
  targetDimensions w h = (maxDimension, (maxDimension / (w / h))%float).
Proof. intros H. unfold targetDimensions. rewrite H. reflexivity. Qed.

Lemma targetDimensions_portrait (w h : number) :
  (h <? w)%float = false ->
  targetDimensions w h = ((maxDimension * (w / h))%float, maxDimension).
Proof. intros H. unfold targetDimensions. rewrite H. reflexivity. Qed.

Example targetDimensions_photo :
  targetDimensions 4000%float 3000%float
  = (470.30203061437021, 352.72652296077769)%float.
Proof. vm_compute. reflexivity. Qed.

(** C2: evaluation of the code on an over-budget image whose dimensions
    are already below the target: a 150000-byte file decoding to 200x200
    pixels is drawn at [maxDimension] x [maxDimension] (about 470x470), so
    the image is enlarged instead of being left at 200x200. *)
Theorem optimizeImage_enlarges_small_image :
  forall toBlob now,
    (MAX_FILE_SIZE <? size Samples.smallNoisyImage) = true
    /\ (200 <? maxDimension)%float = true
    /\ targetDimensions 200%float 200%float = (maxDimension, maxDimension)
    /\ optimizeImage (fun _ => Some (200, 200)%float) toBlob now
         (Some Samples.smallNoisyImage)
       = match toBlob Samples.smallNoisyImage maxDimension maxDimension with
         | Some blob => Resolved (mkFile "noise.png" "image/jpeg" blob now)
         | None => Rejected "Failed to optimize image"
         end.
Proof.
  intros toBlob now.
  assert (Hs : (MAX_FILE_SIZE <? size Samples.smallNoisyImage) = true)
    by (vm_compute; reflexivity).
  assert (Ht : targetDimensions 200%float 200%float = (maxDimension, maxDimension))
    by (vm_compute; reflexivity).
  split; [exact Hs |].
  split; [vm_compute; reflexivity |].
  split; [exact Ht |].
  unfold optimizeImage. rewrite Hs, Ht. reflexivity.
Qed.

End ImageCompressorFacts.

Lemma optimizeImage_identity_under_budget_witness :
  ImageCompressor.optimizeImage (fun _ => None) (fun _ _ _ => None) 0
    (Some (ImageCompressor.mkFile "a.png" "image/png" [Byte.x2a; Byte.x2a] 0))
  = JS.Resolved (ImageCompressor.mkFile "a.png" "image/png" [Byte.x2a; Byte.x2a] 0).
Proof.
  apply (optimizeImage_identity_under_budget (fun _ => None)
           (fun _ _ _ => None) 0).
  vm_compute. discriminate.
Defined.

(** ** Reconciliation of stock rows with the catalogs *)

Section ReconcilerFacts.
Import JS ImageCompressor Reconciler.

Lemma truthy_string_true (s : string) : s <> "" -> truthy_string s = true.
Proof.
  intros H. unfold truthy_string.
  destruct (String.eqb_spec s ""); [contradiction | reflexivity].
Qed.

Lemma find_by_name_none (catalog : list Reference) (n : string) :
  (forall c, In c catalog -> ref_name c <> n) -> find_by_name catalog n = None.
Proof.
  unfold find_by_name. induction catalog as [| a l IH]; intros H; simpl.
  - reflexivity.
  - destruct (String.eqb_spec (ref_name a) n) as [E | _].
    + exfalso. apply (H a); [left; reflexivity | exact E].
    + apply IH. intros c Hc. apply H. right. exact Hc.
Qed.

Lemma find_by_name_some (catalog : list Reference) (n : string) c :
  find_by_name catalog n = Some c -> In c catalog /\ ref_name c = n.
Proof.
  unfold find_by_name. intros H. apply find_some in H.
  destruct H as [Hin Heq]. split; [exact Hin | now apply String.eqb_eq].
Qed.

(** With unique identifiers, looking an entry up by its own identifier
    finds that entry. *)
Lemma find_by_id_unique (catalog : list Reference) c :
  NoDup (map ref_id catalog) -> In c catalog ->
  find_by_id catalog (IdNumber (ref_id c)) = Some c.
Proof.
  unfold find_by_id. simpl.
  induction catalog as [| a l IH]; intros Hnd Hin; simpl.
  - contradiction.
  - inversion Hnd as [| x xs Hnotin Hnd']; subst.
    destruct Hin as [-> | Hin].
    + rewrite Z.eqb_refl. reflexivity.
    + destruct (Z.eqb_spec (ref_id a) (ref_id c)) as [E | _].
      * exfalso. apply Hnotin. rewrite E. now apply in_map.
      * now apply IH.
Qed.

Lemma attach_absent (catalog : list Reference) (name : option string) :
  name = None \/ name = Some "" -> attach catalog name = None.
Proof. intros [-> | ->]; reflexivity. Qed.

Lemma attach_orphan (catalog : list Reference) (n : string) :
  n <> "" -> (forall c, In c catalog -> ref_name c <> n) ->
  attach catalog (Some n) = Some {| att_id := None; att_name := n |}.
Proof.
  intros Hn Hno. unfold attach.
  rewrite (truthy_string_true _ Hn), (find_by_name_none _ _ Hno). reflexivity.
Qed.

Lemma attach_found (catalog : list Reference) (n : string) c :
  n <> "" -> find_by_name catalog n = Some c ->
  attach catalog (Some n) = Some (of_reference c).
Proof.
  intros Hn Hf. unfold attach.
  rewrite (truthy_string_true _ Hn), Hf. reflexivity.
Qed.

(** C3, as the code has it: enrichment is a total function that keeps the
    row's own fields; a non-empty category (warehouse) name that matches
    no catalog entry is attached as the synthetic object with a null id
    and the original name; a null or empty name is attached as [null], no
    object at all; in both cases the form id is the empty string. *)
Theorem enhance_degrades_unmatched_names :
  forall categories warehouses item,
    let e := enhance categories warehouses item in
    (forall n, item_category item = Some n -> n <> "" ->
       (forall c, In c categories -> ref_name c <> n) ->
       e_category e = Some {| att_id := None; att_name := n |}
       /\ e_category_id e = IdString "")
    /\ (forall n, item_warehouse item = Some n -> n <> "" ->
       (forall w, In w warehouses -> ref_name w <> n) ->
       e_warehouse e = Some {| att_id := None; att_name := n |}
       /\ e_warehouse_id e = IdString "")
    /\ (item_category item = None \/ item_category item = Some "" ->
        e_category e = None /\ e_category_id e = IdString "")
    /\ (item_warehouse item = None \/ item_warehouse item = Some "" ->
        e_warehouse e = None /\ e_warehouse_id e = IdString "")
    /\ e_id e = item_id item /\ e_name e = item_name item
    /\ e_quantity e = item_quantity item /\ e_price e = item_price item
    /\ e_threshold e = item_threshold item
    /\ e_thumbnail e = item_thumbnail item.
Proof.
  intros categories warehouses item e. subst e. unfold enhance. simpl.
  split; [| split; [| split; [| split]]].
  - intros n Hc Hn Hno. rewrite Hc, (attach_orphan _ _ Hn Hno). now split.
  - intros n Hw Hn Hno. rewrite Hw, (attach_orphan _ _ Hn Hno). now split.
  - intros H. rewrite (attach_absent _ _ H). now split.
  - intros H. rewrite (attach_absent _ _ H). now split.
  - repeat split.
Qed.

(** C3, the claim as stated fails: the crate row has a null warehouse
    name, and its enriched form carries no warehouse object at all (not a
    synthetic [{ id: null, name }]). *)
Lemma enhance_null_name_attaches_no_object :
  item_warehouse Samples.crate = None
  /\ ~ (exists o,
          e_warehouse (enhance Samples.categories Samples.warehouses
                         Samples.crate) = Some o).
Proof.
  split; [reflexivity |].
  intros [o H]. vm_compute in H. discriminate H.
Qed.

(** With the same catalogs at enrichment and at save: when the row's category and warehouse names
    are non-empty and each resolves to a catalog entry whose identifier is
    nonzero, in catalogs whose identifiers are unique, then enriching the
    row, opening it in the edit form and saving it unchanged issues an
    update for the row's own id that carries exactly the row's name,
    quantity, price, threshold, thumbnail, category and warehouse; the
    insert row that [addItem] builds from the same form has the same
    fields. *)
Theorem enhance_then_save_reproduces_row :
  forall uploadImage categories warehouses item cn wn c w,
    item_category item = Some cn -> item_warehouse item = Some wn ->
    cn <> "" -> wn <> "" ->
    find_by_name categories cn = Some c ->
    find_by_name warehouses wn = Some w ->
    ref_id c <> 0 -> ref_id w <> 0 ->
    NoDup (map ref_id categories) -> NoDup (map ref_id warehouses) ->
    let form := openEditModal (enhance categories warehouses item) in
    saveEditedItem uploadImage categories warehouses form
    = inr (request_of_row item)
    /\ addItem uploadImage categories warehouses form
       = inr (update_data (request_of_row item)).
Proof.
  intros uploadImage categories warehouses item cn wn c w
    Hc Hw Hcn Hwn Hfc Hfw Hc0 Hw0 Hndc Hndw form.
  destruct (find_by_name_some _ _ _ Hfc) as [Hinc Hnc].
  destruct (find_by_name_some _ _ _ Hfw) as [Hinw Hnw].
  assert (Hidc : e_category_id (enhance categories warehouses item)
                 = IdNumber (ref_id c)).
  { unfold enhance; simpl. rewrite Hc, (attach_found _ _ _ Hcn Hfc). simpl.
    destruct (Z.eqb_spec (ref_id c) 0); [contradiction | reflexivity]. }
  assert (Hidw : e_warehouse_id (enhance categories warehouses item)
                 = IdNumber (ref_id w)).
  { unfold enhance; simpl. rewrite Hw, (attach_found _ _ _ Hwn Hfw). simpl.
    destruct (Z.eqb_spec (ref_id w) 0); [contradiction | reflexivity]. }
  assert (Htc : truthy_formId (IdNumber (ref_id c)) = true).
  { simpl. destruct (Z.eqb_spec (ref_id c) 0); [contradiction | reflexivity]. }
  assert (Htw : truthy_formId (IdNumber (ref_id w)) = true).
  { simpl. destruct (Z.eqb_spec (ref_id w) 0); [contradiction | reflexivity]. }
  assert (Hrow : forall thumb,
             updateData categories warehouses form thumb
             = mkStorageRow (item_name item) (item_quantity item)
                 (item_price item) (item_threshold item) thumb
                 (Some cn) (Some wn)).
  { intros thumb. subst form. unfold updateData, openEditModal.
    cbn [form_category_id form_warehouse_id form_name form_quantity
         form_price form_threshold].
    rewrite Hidc, Hidw, Htc, Htw.
    rewrite (find_by_id_unique _ _ Hndc Hinc), (find_by_id_unique _ _ Hndw Hinw).
    rewrite Hnc, Hnw. reflexivity. }
  split.
  - unfold saveEditedItem, thumbnailUrl_of, request_of_row.
    subst form. cbn [openEditModal form_file form_thumbnail form_id].
    rewrite Hrow. rewrite Hc, Hw. reflexivity.
  - unfold addItem, thumbnailUrl_of, request_of_row.
    subst form. cbn [openEditModal form_file form_thumbnail form_id].
    unfold insertData. fold (updateData categories warehouses
      (openEditModal (enhance categories warehouses item))
      (e_thumbnail (enhance categories warehouses item))).
    rewrite Hrow. cbn [update_data]. rewrite Hc, Hw. reflexivity.
Qed.

(** A catalog entry with identifier 0: "Tools" and "Main" both resolve, but
    the category entry has identifier 0, which the form treats as no
    selection; the update written for the hammer row has no category. *)
Lemma roundtrip_drops_category_with_id_zero :
  item_category Samples.hammer = Some "Tools"
  /\ item_warehouse Samples.hammer = Some "Main"
  /\ find_by_name Samples.zeroCategories "Tools" = Some (mkReference 0 "Tools")
  /\ find_by_name Samples.warehouses "Main" = Some (mkReference 1 "Main")
  /\ saveEditedItem Samples.offline Samples.zeroCategories Samples.warehouses
       (openEditModal
          (enhance Samples.zeroCategories Samples.warehouses Samples.hammer))
     = inr (mkUpdate (Some 7)
              (mkStorageRow "Hammer" 5%float 12500%float 10%float None
                 None (Some "Main")))
  /\ saveEditedItem Samples.offline Samples.zeroCategories Samples.warehouses
       (openEditModal
          (enhance Samples.zeroCategories Samples.warehouses Samples.hammer))
     <> inr (request_of_row Samples.hammer).
Proof.
  repeat (split; [vm_compute; reflexivity |]).
  vm_compute. intros H. discriminate H.
Qed.

(** The branches of the written row: in [saveEditedItem] (and [addItem]), when
    the form's [category_id] is set, the category key is absent if the id
    matches no catalog entry, and holds the matched entry's name
    otherwise; the same for [warehouse_id].  The row is built from the
    form and the catalogs alone, so nothing of the previously stored row
    is carried into it. *)
Theorem unresolved_id_omits_field :
  forall categories warehouses form thumbnailUrl,
    let updated := updateData categories warehouses form thumbnailUrl in
    let inserted := insertData categories warehouses form thumbnailUrl in
    (truthy_formId (form_category_id form) = true ->
     (find_by_id categories (form_category_id form) = None ->
      row_category updated = None /\ row_category inserted = None)
     /\ (forall c, find_by_id categories (form_category_id form) = Some c ->
         row_category updated = Some (ref_name c)
         /\ row_category inserted = Some (ref_name c)))
    /\ (truthy_formId (form_warehouse_id form) = true ->
     (find_by_id warehouses (form_warehouse_id form) = None ->
      row_warehouse updated = None /\ row_warehouse inserted = None)
     /\ (forall w, find_by_id warehouses (form_warehouse_id form) = Some w ->
         row_warehouse updated = Some (ref_name w)
         /\ row_warehouse inserted = Some (ref_name w))).
Proof.
  intros categories warehouses form thumbnailUrl updated inserted.
  subst updated inserted. unfold updateData, insertData.
  split; intros Ht.
  - split.
    + intros Hf. rewrite Ht, Hf.
      destruct (truthy_formId (form_warehouse_id form));
        [destruct (find_by_id warehouses _) |]; split; reflexivity.
    + intros c Hf. rewrite Ht, Hf.
      destruct (truthy_formId (form_warehouse_id form));
        [destruct (find_by_id warehouses _) |]; split; reflexivity.
  - split.
    + intros Hf. rewrite Ht, Hf.
      destruct (truthy_formId (form_category_id form));
        [destruct (find_by_id categories _) |]; split; reflexivity.
    + intros w Hf. rewrite Ht, Hf.
      destruct (truthy_formId (form_category_id form));
        [destruct (find_by_id categories _) |]; split; reflexivity.
Qed.

Lemma or_number_nan (x : number) :
  PrimFloat.is_nan x = true -> or_number x 0%float = 0%float.
Proof. intros H. unfold or_number, truthy_number. rewrite H. reflexivity. Qed.

Lemma or_number_strict_eq (x : number) :
  PrimFloat.is_nan x = false -> strict_eq x (or_number x 0%float) = true.
Proof.
  intros H. unfold or_number, truthy_number, strict_eq. rewrite H. simpl.
  destruct (PrimFloat.is_zero x) eqn:Hz; simpl.
  - exact Hz.
  - unfold PrimFloat.is_nan in H. now apply negb_false_iff in H.
Qed.

Lemma or_number_not_nan (x : number) :
  PrimFloat.is_nan (or_number x 0%float) = false.
Proof.
  unfold or_number, truthy_number.
  destruct (PrimFloat.is_nan x) eqn:Hn; simpl; [reflexivity |].
  destruct (PrimFloat.is_zero x); simpl; [reflexivity | exact Hn].
Qed.

Lemma numericField_setField (form : FormItem) (name : string) (x : number) :
  In name ["quantity"; "price"; "threshold"] ->
  numericField (setField form name (NumberValue x)) name = x
  /\ form_file (setField form name (NumberValue x)) = form_file form.
Proof.
  intros Hin. destruct form.
  destruct Hin as [<- | [<- | [<- | []]]]; split; reflexivity.
Qed.

Lemma is_numeric_field_true (name : string) :
  In name ["quantity"; "price"; "threshold"] -> is_numeric_field name = true.
Proof. intros [<- | [<- | [<- | []]]]; reflexivity. Qed.

Lemma numericColumn_updateData categories warehouses form thumb name :
  numericColumn (updateData categories warehouses form thumb) name
  = numericField form name.
Proof.
  unfold updateData, numericColumn, numericField.
  destruct (truthy_formId (form_category_id form));
    [destruct (find_by_id categories _) |];
    (destruct (truthy_formId (form_warehouse_id form));
     [destruct (find_by_id warehouses _) |]); reflexivity.
Qed.

(** C8: for each of the inputs [quantity], [price] and [threshold], both
    change handlers store [parseFloat(value)] when it is a number (equal
    to it under [===]) and 0 when it is [NaN]; the stored value is never
    [NaN]; [saveEditedItem] then fails only if the upload of an attached
    file fails, and otherwise writes the stored number. *)
Theorem numeric_input_is_parsed_or_zero :
  forall parseFloat uploadImage categories warehouses form name value,
    In name ["quantity"; "price"; "threshold"] ->
    let parsed := parseFloat value in
    let edited := handleEditChange parseFloat form name value in
    handleInputChange parseFloat form name value = edited
    /\ (PrimFloat.is_nan parsed = true ->
        numericField edited name = 0%float)
    /\ (PrimFloat.is_nan parsed = false ->
        strict_eq parsed (numericField edited name) = true)
    /\ PrimFloat.is_nan (numericField edited name) = false
    /\ (forall msg,
          saveEditedItem uploadImage categories warehouses edited = inl msg ->
          exists file, form_file form = Some file /\ uploadImage file = inl msg)
    /\ (forall request,
          saveEditedItem uploadImage categories warehouses edited
          = inr request ->
          numericColumn (update_data request) name
          = numericField edited name).
Proof.
  intros parseFloat uploadImage categories warehouses form name value Hin
    parsed edited.
  subst parsed edited. unfold handleEditChange, handleInputChange.
  rewrite (is_numeric_field_true _ Hin).
  destruct (numericField_setField form name
              (or_number (parseFloat value) 0%float) Hin) as [Hfield Hfile].
  split; [reflexivity |].
  split; [intros Hnan; rewrite Hfield; now apply or_number_nan |].
  split; [intros Hnum; rewrite Hfield; now apply or_number_strict_eq |].
  split; [rewrite Hfield; apply or_number_not_nan |].
  split.
  - intros msg. unfold saveEditedItem, thumbnailUrl_of. rewrite Hfile.
    destruct (form_file form) as [file |]; [| discriminate].
    destruct (uploadImage file) as [e | url] eqn:Hup; [| discriminate].
    intros H. injection H as ->. exists file. now split.
  - intros request. unfold saveEditedItem.
    destruct (thumbnailUrl_of uploadImage _) as [e | thumb]; [discriminate |].
    intros H. injection H as <-. cbn [update_data].
    apply numericColumn_updateData.
Qed.

(** On numbers, [q === t] entails [q <= t]. *)
Lemma strict_eq_leb (q t : number) :
  strict_eq q t = true -> (q <=? t)%float = true.
Proof.
  unfold strict_eq. intros H.
  rewrite FloatAxioms.eqb_spec in H. rewrite FloatAxioms.leb_spec.
  unfold SFeqb, SFleb in *.
  destruct (SFcompare (Prim2SF q) (Prim2SF t)) as [[| |] |];
    congruence.
Qed.

(** [stockStatus] on two numbers: "Low Stock" exactly when [quantity <= threshold] and
    "In Stock" otherwise; quantity 5 against threshold 10 is low stock,
    11 against 10 is in stock, and a quantity equal ([===]) to its
    threshold is low stock. *)
Theorem low_stock_iff_quantity_le_threshold :
  (forall q t, stockStatus q t = LowStock <-> (q <=? t)%float = true)
  /\ (forall q t, stockStatus q t = InStock <-> (q <=? t)%float = false)
  /\ statusLabel (stockStatus 5%float 10%float) = "Low Stock"
  /\ statusLabel (stockStatus 11%float 10%float) = "In Stock"
  /\ (forall q t, strict_eq q t = true ->
                  statusLabel (stockStatus q t) = "Low Stock").
Proof.
  split; [| split; [| split; [| split]]].
  - intros q t. unfold stockStatus.
    destruct (q <=? t)%float; split; congruence.
  - intros q t. unfold stockStatus.
    destruct (q <=? t)%float; split; congruence.
  - reflexivity.
  - reflexivity.
  - intros q t Hq. unfold stockStatus. rewrite (strict_eq_leb q t Hq).
    reflexivity.
Qed.

(** The identifiers have to be unique: the first entry with the
    identifier is the one whose name is written. *)
Lemma roundtrip_writes_first_name_of_shared_id :
  find_by_name Samples.clashingCategories "Tools" = Some (mkReference 2 "Tools")
  /\ option_map
       (fun r => row_category (update_data r))
       (match
          saveEditedItem Samples.offline Samples.clashingCategories
            Samples.warehouses
            (openEditModal
               (enhance Samples.clashingCategories Samples.warehouses
                  Samples.hammer))
        with inr r => Some r | inl _ => None end)
     = Some (Some "Hardware").
Proof. split; vm_compute; reflexivity. Qed.

Example parseInt_examples :
  parseInt "3" = Some 3 /\ parseInt " 42px" = Some 42
  /\ parseInt "-7" = Some (-7) /\ parseInt "0x1f" = Some 31
  /\ parseInt "" = None /\ parseInt "abc" = None.
Proof. repeat split. Qed.

(** A [select] element hands the chosen identifier over as a string. *)
Example select_then_save_writes_name :
  row_category
    (updateData Samples.categories Samples.warehouses
       (handleEditChange Samples.notANumber
          (openEditModal
             (enhance Samples.categories Samples.warehouses Samples.crate))
          "category_id" "1") None)
  = Some "Hardware".
Proof. vm_compute. reflexivity. Qed.

End ReconcilerFacts.

Lemma enhance_degrades_unmatched_names_witness :
  Reconciler.e_category
    (Reconciler.enhance Samples.categories Samples.warehouses Samples.crate)
  = Some (Reconciler.mkAttached None "Retired")
  /\ Reconciler.e_warehouse
       (Reconciler.enhance Samples.categories Samples.warehouses Samples.crate)
     = None.
Proof.
  destruct (enhance_degrades_unmatched_names
              Samples.categories Samples.warehouses Samples.crate)
    as (Horphan & _ & _ & Habsent & _).
  split.
  - apply (Horphan "Retired"); [reflexivity | discriminate |].
    intros c [<- | [<- | []]]; discriminate.
  - apply Habsent. left. reflexivity.
Defined.

Lemma enhance_then_save_reproduces_row_witness :
  Reconciler.saveEditedItem Samples.offline Samples.categories
    Samples.warehouses
    (Reconciler.openEditModal
       (Reconciler.enhance Samples.categories Samples.warehouses
          Samples.hammer))
  = inr (Reconciler.request_of_row Samples.hammer).
Proof.
  apply (enhance_then_save_reproduces_row Samples.offline Samples.categories
           Samples.warehouses Samples.hammer "Tools" "Main"
           (Reconciler.mkReference 2 "Tools")
           (Reconciler.mkReference 1 "Main"));
    try reflexivity; try discriminate;
    repeat constructor; simpl; intuition discriminate.
Defined.

Lemma unresolved_id_omits_field_witness :
  let form :=
    Reconciler.handleEditChange Samples.notANumber
      (Reconciler.openEditModal
         (Reconciler.enhance Samples.categories Samples.warehouses
            Samples.hammer))
      "category_id" "99" in
  Reconciler.row_category
    (Reconciler.updateData Samples.categories Samples.warehouses form None)
  = None
  /\ Reconciler.row_warehouse
       (Reconciler.updateData Samples.categories Samples.warehouses form None)
     = Some "Main".
Proof.
  intros form.
  destruct (unresolved_id_omits_field Samples.categories Samples.warehouses
              form None) as [Hcat Hwh].
  split.
  - apply Hcat; reflexivity.
  - apply (proj2 (Hwh eq_refl) (Reconciler.mkReference 1 "Main")).
    reflexivity.
Defined.

Lemma numeric_input_is_parsed_or_zero_witness :
  Reconciler.numericField
    (Reconciler.handleEditChange Samples.notANumber
       Reconciler.initialNewItem "quantity" "abc") "quantity"
  = 0%float.
Proof.
  apply (numeric_input_is_parsed_or_zero Samples.notANumber Samples.offline
           Samples.categories Samples.warehouses Reconciler.initialNewItem
           "quantity" "abc").
  - left. reflexivity.
  - reflexivity.
Defined.

Lemma low_stock_iff_quantity_le_threshold_witness :
  Reconciler.statusLabel (Reconciler.stockStatus 10%float 10%float)
  = "Low Stock".
Proof.
  apply (proj2 (proj2 (proj2 (proj2 low_stock_iff_quantity_le_threshold)))
           10%float 10%float).
  reflexivity.
Defined.

(** ** Pagination *)

Section PageFacts.
Import JS Reconciler Page.

Lemma totalPages_div (st : PageState) :
  0 < itemsPerPage st ->
  totalPages st = - ((- totalItems st) / itemsPerPage st).
Proof.
  unfold totalPages. generalize (totalItems st) as t.
  destruct (itemsPerPage st) as [| ps | ps]; intros t Hs; try lia.
  unfold Qceiling, Qfloor, Qdiv, Qmult, Qinv, Qopp, inject_Z. simpl.
  rewrite Z.mul_1_r. reflexivity.
Qed.

(** [totalPages] is the least number of pages that hold [totalItems]. *)
Lemma totalPages_ceiling (st : PageState) :
  0 < itemsPerPage st ->
  (totalPages st - 1) * itemsPerPage st < totalItems st
  /\ totalItems st <= totalPages st * itemsPerPage st.
Proof.
  intros Hs. rewrite (totalPages_div st Hs).
  Z.div_mod_to_equations. nia.
Qed.

Lemma length_insert_by_name row sorted :
  List.length (Store.insert_by_name row sorted) = S (List.length sorted).
Proof.
  induction sorted as [| r rest IH]; simpl; [reflexivity |].
  destruct (String.leb (item_name row) (item_name r)); simpl;
    [reflexivity | now rewrite IH].
Qed.

Lemma length_order_by_name rows :
  List.length (Store.order_by_name rows) = List.length rows.
Proof.
  unfold Store.order_by_name.
  induction rows as [| r rest IH]; simpl; [reflexivity |].
  now rewrite length_insert_by_name, IH.
Qed.

Lemma range_beyond (from to : Z) rows :
  Z.of_nat (List.length rows) <= from -> Store.range from to rows = [].
Proof.
  intros H. unfold Store.range.
  rewrite skipn_all2 by lia. apply firstn_nil.
Qed.

Lemma count_or_zero_some (n : Z) : count_or_zero (Some n) = n.
Proof. unfold count_or_zero. destruct (Z.eqb_spec n 0); congruence. Qed.

Lemma fetchInventory_select table st :
  fetchInventory (Store.select table) st
  = setLoading
      (setItems
         (setTotalItems (setLoading st true)
            (Z.of_nat
               (List.length (filter (Store.matches (buildRequest st)) table))))
         (map (enhance (categories st) (warehouses st))
            (Store.range (req_from (buildRequest st)) (req_to (buildRequest st))
               (Store.order_by_name
                  (filter (Store.matches (buildRequest st)) table)))))
      false.
Proof.
  unfold fetchInventory, Store.select.
  cbn [resp_error resp_data resp_count]. rewrite count_or_zero_some.
  destruct st. reflexivity.
Qed.

(** Page [p] of size [s] asks for the offsets [(p-1)*s] to [p*s - 1];
    against the store, the published count is the number of rows that pass
    the filters, whatever page is asked for, a page beyond the last one
    publishes no item, and [totalPages] is the ceiling of
    [totalItems / itemsPerPage]. *)
Theorem fetch_window_count_and_total_pages :
  forall table st,
    1 <= currentPage st -> 0 < itemsPerPage st ->
    let p := currentPage st in
    let s := itemsPerPage st in
    let st' := fetchInventory (Store.select table) st in
    req_from (buildRequest st) = (p - 1) * s
    /\ req_to (buildRequest st) = p * s - 1
    /\ totalItems st'
       = Z.of_nat (List.length (filter (Store.matches (buildRequest st)) table))
    /\ (forall page,
          totalItems (fetchInventory (Store.select table)
                        (setCurrentPage st page))
          = totalItems st')
    /\ (totalPages st' < p -> items st' = [])
    /\ (totalPages st' - 1) * s < totalItems st'
    /\ totalItems st' <= totalPages st' * s.
Proof.
  intros table st Hp Hs p s st'.
  assert (Hpage : currentPage st' = p /\ itemsPerPage st' = s).
  { subst st' p s. rewrite fetchInventory_select. destruct st. now split. }
  assert (Hcount : totalItems st'
            = Z.of_nat
                (List.length (filter (Store.matches (buildRequest st)) table))).
  { subst st'. rewrite fetchInventory_select. destruct st. reflexivity. }
  destruct Hpage as [_ Hs'].
  assert (Hceil := totalPages_ceiling st'). rewrite Hs' in Hceil.
  specialize (Hceil Hs). destruct Hceil as [Hlow Hhigh].
  split; [reflexivity |].
  split; [subst p s; unfold buildRequest; simpl; lia |].
  split; [exact Hcount |].
  split.
  { intros page. rewrite Hcount. rewrite fetchInventory_select.
    destruct st. reflexivity. }
  split; [| split; assumption].
  intros Hpast. subst st'. rewrite fetchInventory_select in *.
  assert (Hfrom : Z.of_nat
                    (List.length
                       (Store.order_by_name
                          (filter (Store.matches (buildRequest st)) table)))
                  <= req_from (buildRequest st)).
  { rewrite length_order_by_name.
    replace (req_from (buildRequest st)) with ((p - 1) * s) by reflexivity.
    destruct st; cbn in *. nia. }
  rewrite (range_beyond _ _ _ Hfrom). destruct st. reflexivity.
Qed.

(** C10: a change of the search term or of either filter sets the current
    page to 1, so the next request starts at offset 0; the current page
    moves only through such a reset or through [changePage] with a page
    between 1 and [totalPages], and a fetch never moves it. *)
Theorem filter_change_resets_page :
  forall st a,
    let st' := handle st a in
    (is_filter_action a = true ->
     currentPage st' = 1 /\ req_from (buildRequest st') = 0)
    /\ (currentPage st' <> currentPage st ->
        (is_filter_action a = true /\ currentPage st' = 1)
        \/ (exists page, a = PageClick page
                         /\ 1 <= page <= totalPages st
                         /\ currentPage st' = page))
    /\ (currentPage st = 1 -> currentPage st' <> 1 ->
        exists page, a = PageClick page
                     /\ 1 <= page <= totalPages st
                     /\ currentPage st' = page)
    /\ (forall select, currentPage (fetchInventory select st) = currentPage st).
Proof.
  intros st a st'.
  assert (Hfilter : is_filter_action a = true ->
                    currentPage st' = 1 /\ req_from (buildRequest st') = 0).
  { subst st'. destruct a; simpl; intros H; try discriminate;
      destruct st; split; reflexivity. }
  assert (Hclick : forall page, a = PageClick page ->
                     currentPage st' <> currentPage st ->
                     1 <= page <= totalPages st /\ currentPage st' = page).
  { intros page -> Hmove. subst st'. simpl in *. unfold changePage in *.
    destruct (Z.ltb_spec page 1) as [H1 | H1]; simpl in *;
      [contradiction |].
    destruct (Z.ltb_spec (totalPages st) page) as [H2 | H2];
      [contradiction |].
    split; [lia | destruct st; reflexivity]. }
  split; [exact Hfilter |].
  split; [| split].
  - intros Hmove. destruct a as [v | v | v | page];
      try (left; split; [reflexivity | now apply Hfilter]).
    right. exists page. split; [reflexivity |]. now apply Hclick.
  - intros H1 Hmove. destruct a as [v | v | v | page];
      try (exfalso; apply Hmove; now apply Hfilter).
    exists page. split; [reflexivity |]. apply Hclick; [reflexivity | congruence].
  - intros select. unfold fetchInventory.
    destruct (resp_error _); [destruct st; reflexivity |].
    destruct (resp_data _); destruct st; reflexivity.
Qed.

Example totalPages_examples :
  totalPages (setTotalItems initialState 25) = 3
  /\ totalPages (setTotalItems initialState 30) = 3
  /\ totalPages (setTotalItems initialState 0) = 0.
Proof. repeat split. Qed.

Example ilike_examples :
  Store.ilike "%AM%" "Hammer" = true /\ Store.ilike "%saw%" "Hammer" = false
  /\ Store.ilike "%" "" = true.
Proof. repeat split. Qed.

Example first_page_of_two :
  map e_name
    (items (fetchInventory (Store.select Samples.stock)
              (mkPage [] Samples.categories Samples.warehouses true 1 2 0
                 "" "" "" None)))
  = ["Anvil"; "Crate"]
  /\ map e_name
       (items (fetchInventory (Store.select Samples.stock)
                 (mkPage [] Samples.categories Samples.warehouses true 2 2 0
                    "" "" "" None)))
     = ["Hammer"].
Proof. split; vm_compute; reflexivity. Qed.

End PageFacts.

Lemma fetch_window_count_and_total_pages_witness :
  Page.items (Page.fetchInventory (Store.select Samples.stock)
                Samples.secondPage) = []
  /\ Page.totalItems (Page.fetchInventory (Store.select Samples.stock)
                        Samples.secondPage) = 3.
Proof.
  destruct (fetch_window_count_and_total_pages Samples.stock Samples.secondPage)
    as (_ & _ & Hcount & _ & Hpast & _).
  - simpl. lia.
  - simpl. lia.
  - split.
    + apply Hpast. vm_compute. reflexivity.
    + rewrite Hcount. reflexivity.
Defined.

Lemma filter_change_resets_page_witness :
  Page.currentPage
    (Page.handle Samples.secondPage (Page.CategorySelect "Tools")) = 1.
Proof.
  apply (filter_change_resets_page Samples.secondPage
           (Page.CategorySelect "Tools")).
  reflexivity.
Defined.

(** ** Search keystrokes and the delayed search *)

Section EffectsFacts.
Import JS Reconciler Page Effects.

Lemma searchTerm_handleSearchChange st v :
  searchTerm (handleSearchChange st v) = v.
Proof. destruct st. reflexivity. Qed.

(** A keystroke that changes the term while no timeout is due: [loadData]
    fetches at once, and the delayed search is set (again) for 500ms later,
    the timeout that was pending being cleared without having fetched. *)
Lemma dispatch_keystroke st timer log t v :
  match timer with Some due => t < due | None => True end ->
  searchTerm st <> v ->
  dispatch (mkRuntime st timer log) (t, SearchInput v)
  = mkRuntime (handleSearchChange st v) (Some (t + 500))
      ((t, LoadData) :: log).
Proof.
  intros Hdue Hterm. unfold dispatch.
  assert (Hadv : advance t (mkRuntime st timer log) = mkRuntime st timer log).
  { unfold advance. simpl. destruct timer as [due |]; [| reflexivity].
    destruct (Z.leb_spec due t); [lia | reflexivity]. }
  rewrite Hadv. unfold commit. cbn [page pendingTimer fetchLog handle].
  assert (Hchanged : filters_changed st (handleSearchChange st v) = true).
  { unfold filters_changed. rewrite searchTerm_handleSearchChange.
    destruct (String.eqb_spec (searchTerm st) v); [contradiction | reflexivity]. }
  unfold loadData_deps_changed, delaySearch_deps_changed.
  rewrite Hchanged, orb_true_r. reflexivity.
Qed.

(** C7: evaluation of the code on five keystrokes, each at most 100ms after
    the previous one and each changing the term: [fetchInventory] is called
    six times, once by [loadData] at every keystroke and once by the
    delayed search, 500ms after the last keystroke. *)
Theorem five_keystrokes_fetch_six_times :
  forall st t1 t2 t3 t4 t5 v1 v2 v3 v4 v5 t,
    t1 <= t2 <= t1 + 100 -> t2 <= t3 <= t2 + 100 ->
    t3 <= t4 <= t3 + 100 -> t4 <= t5 <= t4 + 100 ->
    searchTerm st <> v1 -> v1 <> v2 -> v2 <> v3 -> v3 <> v4 -> v4 <> v5 ->
    t5 + 500 <= t ->
    let rt :=
      advance t
        (run [(t1, SearchInput v1); (t2, SearchInput v2); (t3, SearchInput v3);
              (t4, SearchInput v4); (t5, SearchInput v5)] (idle st)) in
    rev (fetchLog rt)
    = [(t1, LoadData); (t2, LoadData); (t3, LoadData); (t4, LoadData);
       (t5, LoadData); (t5 + 500, DelaySearch)]
    /\ calls LoadData rt = [t1; t2; t3; t4; t5]
    /\ calls DelaySearch rt = [t5 + 500]
    /\ List.length (fetchLog rt) = 6%nat
    /\ pendingTimer rt = None.
Proof.
  intros st t1 t2 t3 t4 t5 v1 v2 v3 v4 v5 t H12 H23 H34 H45
    Hv1 Hv2 Hv3 Hv4 Hv5 Ht rt.
  assert (Hrun :
    run [(t1, SearchInput v1); (t2, SearchInput v2); (t3, SearchInput v3);
         (t4, SearchInput v4); (t5, SearchInput v5)] (idle st)
    = mkRuntime
        (handleSearchChange
           (handleSearchChange
              (handleSearchChange
                 (handleSearchChange (handleSearchChange st v1) v2) v3) v4) v5)
        (Some (t5 + 500))
        [(t5, LoadData); (t4, LoadData); (t3, LoadData); (t2, LoadData);
         (t1, LoadData)]).
  { unfold run, idle. cbn [fold_left].
    rewrite dispatch_keystroke by (simpl; trivial).
    rewrite dispatch_keystroke
      by (rewrite ?searchTerm_handleSearchChange; simpl; trivial; lia).
    rewrite dispatch_keystroke
      by (rewrite ?searchTerm_handleSearchChange; simpl; trivial; lia).
    rewrite dispatch_keystroke
      by (rewrite ?searchTerm_handleSearchChange; simpl; trivial; lia).
    rewrite dispatch_keystroke
      by (rewrite ?searchTerm_handleSearchChange; simpl; trivial; lia).
    reflexivity. }
  subst rt. rewrite Hrun. unfold advance. cbn [pendingTimer].
  destruct (Z.leb_spec (t5 + 500) t); [| lia].
  repeat split.
Qed.

End EffectsFacts.

Lemma five_keystrokes_fetch_six_times_witness :
  Effects.calls Effects.LoadData
    (Effects.advance 2000
       (Effects.run Samples.typing (Effects.idle Page.initialState)))
  = [0; 100; 200; 300; 400]
  /\ Effects.calls Effects.DelaySearch
       (Effects.advance 2000
          (Effects.run Samples.typing (Effects.idle Page.initialState)))
     = [900].
Proof.
  destruct (five_keystrokes_fetch_six_times Page.initialState
              0 100 200 300 400 "s" "sc" "scr" "scre" "screw" 2000)
    as (_ & Hload & Hdelay & _); try lia; try discriminate.
  split; [exact Hload | exact Hdelay].
Defined.

(** * Further properties of the page *)

(** ** Identifiers through a [select] element *)

Section ConversionFacts.
Import JS Reconciler Conversions.

Lemma digits_uint (d : Decimal.uint) (acc : Z) :
  digits 10 (Some acc) (NilEmpty.string_of_uint d)
  = Some (uint_value d acc).
Proof.
  revert acc. induction d; intros acc; cbn [NilEmpty.string_of_uint uint_value];
    [reflexivity | ..];
    cbn [digits]; apply IHd.
Qed.

Lemma digits_uint_none (d : Decimal.uint) :
  d <> Decimal.Nil ->
  digits 10 None (NilEmpty.string_of_uint d) = Some (uint_value d 0).
Proof.
  destruct d; intros Hd; [contradiction | ..];
    cbn [NilEmpty.string_of_uint uint_value digits];
    apply digits_uint.
Qed.

Lemma uint_value_acc (d : Decimal.uint) (acc : positive) :
  uint_value d (Z.pos acc) = Z.pos (Pos.of_uint_acc d acc).
Proof.
  revert acc. induction d; intros acc; cbn [uint_value Pos.of_uint_acc];
    [reflexivity | ..]; rewrite <- IHd; f_equal; lia.
Qed.

Lemma uint_value_of_uint (d : Decimal.uint) :
  uint_value d 0 = Z.of_N (Pos.of_uint d).
Proof.
  induction d; cbn [uint_value Pos.of_uint]; [reflexivity | exact IHd | ..];
    cbn [Z.mul Z.add Z.of_N]; apply uint_value_acc.
Qed.

Lemma parseInt_unsigned (d : Decimal.uint) :
  d <> Decimal.Nil ->
  parseInt (NilEmpty.string_of_uint d) = Some (uint_value d 0).
Proof.
  intros Hd.
  assert (H : parseInt (NilEmpty.string_of_uint d)
              = option_map (Z.mul 1)
                  (digits 10 None (NilEmpty.string_of_uint d))).
  { destruct d; [contradiction | ..]; destruct d; reflexivity. }
  rewrite H, (digits_uint_none d Hd). cbn [option_map].
  now rewrite Z.mul_1_l.
Qed.

Lemma parseInt_negative (d : Decimal.uint) :
  d <> Decimal.Nil ->
  parseInt (String "-" (NilEmpty.string_of_uint d))
  = Some (- uint_value d 0).
Proof.
  intros Hd.
  assert (H : parseInt (String "-" (NilEmpty.string_of_uint d))
              = option_map (Z.mul (-1))
                  (digits 10 None (NilEmpty.string_of_uint d))).
  { destruct d; [contradiction | ..]; destruct d; reflexivity. }
  rewrite H, (digits_uint_none d Hd). cbn [option_map].
  f_equal; lia.
Qed.

Lemma string_of_uint_nonnil (d : Decimal.uint) :
  d <> Decimal.Nil ->
  NilZero.string_of_uint d = NilEmpty.string_of_uint d.
Proof. destruct d; [contradiction | reflexivity ..]. Qed.

(** Reading back the decimal string of an integer gives the integer:
    [parseInt(String(n))] is [n], also for 0 and for negative [n]. *)
Lemma parseInt_toString :
  forall n : Z, parseInt (toString n) = Some n.
Proof.
  intros [| p | p]; unfold toString, Z.to_int, NilZero.string_of_int.
  - reflexivity.
  - rewrite (string_of_uint_nonnil _ (DecimalPos.Unsigned.to_uint_nonnil p)).
    rewrite (parseInt_unsigned _ (DecimalPos.Unsigned.to_uint_nonnil p)).
    rewrite uint_value_of_uint, DecimalPos.Unsigned.of_to. reflexivity.
  - rewrite (string_of_uint_nonnil _ (DecimalPos.Unsigned.to_uint_nonnil p)).
    rewrite (parseInt_negative _ (DecimalPos.Unsigned.to_uint_nonnil p)).
    rewrite uint_value_of_uint, DecimalPos.Unsigned.of_to. reflexivity.
Qed.

End ConversionFacts.

Section SelectFacts.
Import JS Reconciler Conversions.

Lemma toString_nonempty (n : Z) : truthy_string (toString n) = true.
Proof.
  apply truthy_string_true. intros H.
  generalize (parseInt_toString n). rewrite H. discriminate.
Qed.

Lemma find_by_id_parsed (catalog : list Reference) (v : formId) c :
  parseInt_formId v = Some (ref_id c) ->
  NoDup (map ref_id catalog) -> In c catalog ->
  find_by_id catalog v = Some c.
Proof.
  intros Hv Hnd Hin. rewrite <- (find_by_id_unique catalog c Hnd Hin).
  unfold find_by_id. rewrite Hv. reflexivity.
Qed.

(** X13: choosing an entry in the category and warehouse [select]
    elements of the edit form hands its identifier over as a decimal
    string; with unique identifiers in each catalog, the saved row then
    carries exactly the chosen entries' names, whatever the identifiers
    are (0 included) and whatever the form held before. *)
Theorem chosen_options_are_written :
  forall parseFloat categories warehouses form thumbnailUrl c w,
    NoDup (map ref_id categories) -> NoDup (map ref_id warehouses) ->
    In c categories -> In w warehouses ->
    let chosen :=
      handleEditChange parseFloat
        (handleEditChange parseFloat form "category_id" (toString (ref_id c)))
        "warehouse_id" (toString (ref_id w)) in
    row_category (updateData categories warehouses chosen thumbnailUrl)
    = Some (ref_name c)
    /\ row_warehouse (updateData categories warehouses chosen thumbnailUrl)
       = Some (ref_name w).
Proof.
  intros parseFloat categories warehouses form thumbnailUrl c w
    Hndc Hndw Hinc Hinw chosen.
  assert (Hcid : form_category_id chosen = IdString (toString (ref_id c)))
    by (subst chosen; destruct form; reflexivity).
  assert (Hwid : form_warehouse_id chosen = IdString (toString (ref_id w)))
    by (subst chosen; destruct form; reflexivity).
  unfold updateData. rewrite Hcid, Hwid.
  cbn [truthy_formId]. rewrite !toString_nonempty.
  rewrite (find_by_id_parsed categories (IdString (toString (ref_id c))) c
             (parseInt_toString (ref_id c)) Hndc Hinc).
  rewrite (find_by_id_parsed warehouses (IdString (toString (ref_id w))) w
             (parseInt_toString (ref_id w)) Hndw Hinw).
  split; reflexivity.
Qed.

End SelectFacts.

Lemma chosen_options_are_written_witness :
  Reconciler.row_category
    (Reconciler.updateData Samples.zeroCategories Samples.warehouses
       (Reconciler.handleEditChange Samples.notANumber
          (Reconciler.handleEditChange Samples.notANumber
             Reconciler.initialNewItem "category_id" (Conversions.toString 0))
          "warehouse_id" (Conversions.toString 4)) None)
  = Some "Tools".
Proof.
  apply (chosen_options_are_written Samples.notANumber Samples.zeroCategories
           Samples.warehouses Reconciler.initialNewItem None
           (Reconciler.mkReference 0 "Tools")
           (Reconciler.mkReference 4 "Annex"));
    repeat constructor; simpl; intuition discriminate.
Defined.

(** ** The pager *)

Section PagerFacts.
Import JS Reconciler Page View.

Lemma pageNumber_offset (c t i : Z) :
  pageNumber c t i = pageNumber c t 0 + i.
Proof.
  unfold pageNumber.
  destruct (t <=? 5); [lia |].
  destruct (c <=? 3); [lia |].
  destruct (t - 2 <=? c); lia.
Qed.

Lemma pageNumber_first_bounds (c t : Z) :
  1 <= c <= t ->
  1 <= pageNumber c t 0 <= c
  /\ c < pageNumber c t 0 + Z.min 5 t
  /\ pageNumber c t 0 + Z.min 5 t - 1 <= t.
Proof.
  intros Hc. unfold pageNumber.
  destruct (Z.leb_spec t 5); [lia |].
  destruct (Z.leb_spec c 3); [lia |].
  destruct (Z.leb_spec (t - 2) c); lia.
Qed.

Lemma in_pageNumbers (st : PageState) (n : Z) :
  In n (pageNumbers st) <->
  pageNumber (currentPage st) (totalPages st) 0 <= n
  < pageNumber (currentPage st) (totalPages st) 0 + Z.min 5 (totalPages st)
  /\ 0 < Z.min 5 (totalPages st).
Proof.
  unfold pageNumbers. rewrite in_map_iff. split.
  - intros [i [Hn Hi]]. apply in_seq in Hi.
    rewrite pageNumber_offset in Hn. lia.
  - intros [Hn Hpos].
    exists (Z.to_nat (n - pageNumber (currentPage st) (totalPages st) 0)).
    split.
    + rewrite pageNumber_offset. lia.
    + apply in_seq. lia.
Qed.

Lemma pageNumbers_bound (st : PageState) (n : Z) :
  1 <= currentPage st <= totalPages st ->
  In n (pageNumbers st) -> 1 <= n <= totalPages st.
Proof.
  intros Hc Hn. apply in_pageNumbers in Hn.
  destruct (pageNumber_first_bounds _ _ Hc) as (Hfirst & Hcur & Hlast). lia.
Qed.

(** X1: on a page between 1 and [totalPages], the pager shows
    [min(5, totalPages)] buttons whose numbers are consecutive, all between
    1 and [totalPages], and the current page is one of them. *)
Theorem pageNumbers_window :
  forall st,
    1 <= currentPage st <= totalPages st ->
    let first := pageNumber (currentPage st) (totalPages st) 0 in
    let count := Z.to_nat (Z.min 5 (totalPages st)) in
    pageNumbers st = map (fun i => first + Z.of_nat i) (seq 0 count)
    /\ List.length (pageNumbers st) = count
    /\ In (currentPage st) (pageNumbers st)
    /\ (forall n, In n (pageNumbers st) -> 1 <= n <= totalPages st).
Proof.
  intros st Hc first count.
  destruct (pageNumber_first_bounds _ _ Hc) as (Hfirst & Hcur & Hlast).
  split; [| split; [| split]].
  - unfold pageNumbers. apply map_ext. intros i. apply pageNumber_offset.
  - unfold pageNumbers. now rewrite length_map, length_seq.
  - apply in_pageNumbers. lia.
  - intros n Hn. apply in_pageNumbers in Hn. lia.
Qed.

Lemma totalPages_setCurrentPage st page :
  totalPages (setCurrentPage st page) = totalPages st.
Proof. destruct st. reflexivity. Qed.

Lemma currentPage_setCurrentPage st page :
  currentPage (setCurrentPage st page) = page.
Proof. destruct st. reflexivity. Qed.

Lemma changePage_in_range st page :
  1 <= page <= totalPages st -> changePage st page = setCurrentPage st page.
Proof.
  intros H. unfold changePage.
  destruct (Z.ltb_spec page 1); [lia |].
  destruct (Z.ltb_spec (totalPages st) page); [lia | reflexivity].
Qed.

Lemma changePage_out_of_range st page :
  page < 1 \/ totalPages st < page -> changePage st page = st.
Proof.
  intros H. unfold changePage.
  destruct (Z.ltb_spec page 1); [reflexivity |].
  destruct (Z.ltb_spec (totalPages st) page); [reflexivity | lia].
Qed.

(** X2: on a page between 1 and [totalPages], every pager button keeps
    the page in that range: a number button moves to its number, Previous
    and Next move by one, and where Previous (on the first page) or Next
    (on the last one) is shown disabled, the guard of [changePage] makes
    its click change nothing. *)
Theorem pager_buttons_stay_in_range :
  forall st b,
    1 <= currentPage st <= totalPages st ->
    (forall n, b = Number n -> In n (pageNumbers st)) ->
    let st' := onClick st b in
    1 <= currentPage st' <= totalPages st'
    /\ totalPages st' = totalPages st
    /\ currentPage st'
       = match b with
         | Previous =>
             if disabled st Previous
             then currentPage st else currentPage st - 1
         | Next =>
             if disabled st Next
             then currentPage st else currentPage st + 1
         | Number n => n
         end.
Proof.
  intros st b Hc Hb st'. subst st'.
  destruct b as [| | n]; cbn [onClick disabled].
  - destruct (Z.eqb_spec (currentPage st) 1) as [E | E].
    + rewrite changePage_out_of_range by lia. lia.
    + rewrite changePage_in_range by lia.
      rewrite totalPages_setCurrentPage, currentPage_setCurrentPage. lia.
  - destruct (Z.eqb_spec (currentPage st) (totalPages st)) as [E | E].
    + rewrite changePage_out_of_range by lia. lia.
    + rewrite changePage_in_range by lia.
      rewrite totalPages_setCurrentPage, currentPage_setCurrentPage. lia.
  - assert (Hn : 1 <= n <= totalPages st).
    { apply (pageNumbers_bound st); [exact Hc | now apply Hb]. }
    rewrite changePage_in_range by lia.
    rewrite totalPages_setCurrentPage, currentPage_setCurrentPage. lia.
Qed.

End PagerFacts.

(** ** Fetching and showing the inventory *)

Section FetchFacts.
Import JS Reconciler Page View Catalog Lifecycle.

Lemma fetchInventoryFrom_same select st :
  fetchInventoryFrom select st st = fetchInventory select st.
Proof. destruct st. reflexivity. Qed.

Lemma fetchInventoryFrom_query select closure st :
  let st' := fetchInventoryFrom select closure st in
  currentPage st' = currentPage st /\ itemsPerPage st' = itemsPerPage st
  /\ searchTerm st' = searchTerm st /\ filterCategory st' = filterCategory st
  /\ filterWarehouse st' = filterWarehouse st
  /\ categories st' = categories st /\ warehouses st' = warehouses st.
Proof.
  unfold fetchInventoryFrom.
  destruct (resp_error _); [destruct st; repeat split |].
  destruct (resp_data _); destruct st; repeat split.
Qed.

(** X3: in every state the page can reach (by user actions, fetches,
    catalog refreshes and additions, in any order and with any answers of
    the store), the current page is at least 1 and the page size is 10, so
    a fetch never asks for a negative offset and always asks for a window
    of ten rows. *)
Theorem reachable_window :
  forall st,
    reachable st ->
    1 <= currentPage st /\ itemsPerPage st = 10
    /\ 0 <= req_from (buildRequest st)
    /\ req_to (buildRequest st) = req_from (buildRequest st) + 9.
Proof.
  assert (Hinv : forall st, reachable st ->
                   1 <= currentPage st /\ itemsPerPage st = 10).
  { induction 1 as [| st a _ [IHp IHs] | st select closure _ [IHp IHs] _ _
                    | st response _ [IHp IHs] | st response _ [IHp IHs]
                    | st insert dialog _ [IHp IHs]
                    | st insert dialog _ [IHp IHs]].
    - split; reflexivity.
    - destruct a as [v | v | v | page]; cbn [handle];
        try (destruct st; cbn in *; split; [lia | assumption]).
      unfold changePage.
      destruct (Z.ltb_spec page 1); cbn [orb]; [now split |].
      destruct (totalPages st <? page); [now split |].
      destruct st; cbn in *. split; [lia | assumption].
    - destruct (fetchInventoryFrom_query select closure st)
        as (Hp & Hs & _). rewrite Hp, Hs. now split.
    - unfold fetchCategories. destruct (cat_error response);
        destruct st; cbn in *; now split.
    - unfold fetchWarehouses. destruct (cat_error response);
        destruct st; cbn in *; now split.
    - unfold addCategory. destruct (insert (dialog_name dialog));
        destruct st; cbn in *; now split.
    - unfold addWarehouse. destruct (insert (dialog_name dialog));
        destruct st; cbn in *; now split.
  }
  intros st Hst. destruct (Hinv st Hst) as [Hp Hs].
  split; [exact Hp |]. split; [exact Hs |].
  unfold buildRequest. cbn [req_from req_to]. rewrite Hs. lia.
Qed.

(** X4: when the store answers the read with an error, [fetchInventory]
    keeps the list, the total, the catalogs and the query as they were; it
    only puts the message in the error slot and ends with [loading] off. *)
Theorem fetchInventory_error_keeps_list :
  forall select st message,
    resp_error (select (buildRequest st)) = Some message ->
    let st' := fetchInventory select st in
    items st' = items st /\ totalItems st' = totalItems st
    /\ categories st' = categories st /\ warehouses st' = warehouses st
    /\ currentPage st' = currentPage st /\ searchTerm st' = searchTerm st
    /\ filterCategory st' = filterCategory st
    /\ filterWarehouse st' = filterWarehouse st
    /\ error st' = Some message /\ loading st' = false.
Proof.
  intros select st message Herr st'. subst st'. unfold fetchInventory.
  replace (buildRequest (setLoading st true)) with (buildRequest st)
    by (destruct st; reflexivity).
  rewrite Herr. destruct st. repeat split.
Qed.

(** X5: when the read succeeds, [fetchInventory] publishes one item per
    returned row, in the order of the rows and with their ids, names and
    thumbnails (nothing for null data), takes the count as the total (0
    for a null count), ends with [loading] off, and leaves the error slot
    as it was: a message shown earlier stays until it is dismissed. *)
Theorem fetchInventory_success_publishes_rows :
  forall select st,
    resp_error (select (buildRequest st)) = None ->
    let response := select (buildRequest st) in
    let rows := match resp_data response with Some l => l | None => [] end in
    let st' := fetchInventory select st in
    map e_id (items st') = map item_id rows
    /\ map e_name (items st') = map item_name rows
    /\ map e_thumbnail (items st') = map item_thumbnail rows
    /\ List.length (items st') = List.length rows
    /\ totalItems st'
       = match resp_count response with Some n => n | None => 0 end
    /\ error st' = error st /\ loading st' = false.
Proof.
  intros select st Hok response rows st'. subst st' rows response.
  unfold fetchInventory.
  replace (buildRequest (setLoading st true)) with (buildRequest st)
    by (destruct st; reflexivity).
  rewrite Hok.
  assert (Hcount : forall c, count_or_zero c
                             = match c with Some n => n | None => 0 end).
  { intros [n |]; [| reflexivity]. unfold count_or_zero.
    destruct (Z.eqb_spec n 0); congruence. }
  destruct (resp_data (select (buildRequest st))) as [l |];
    destruct st; cbn; rewrite ?map_map, ?length_map, Hcount; repeat split.
Qed.

Lemma length_range (from to : Z) (rows : list StockItem) :
  0 <= from -> from <= to + 1 ->
  Z.of_nat (List.length (Store.range from to rows))
  = Z.max 0 (Z.min (to - from + 1) (Z.of_nat (List.length rows) - from)).
Proof.
  intros Hfrom Hto. unfold Store.range.
  rewrite length_firstn, length_skipn. lia.
Qed.

(** X6: against the store, when the list is filled by a fetch issued from
    a render with the same page and page size as the state on screen (as
    after a page click or a filter change) and holds at least one item,
    the caption "Showing a to b of n" is exact: [a] is one past the
    requested offset, and [b - a + 1] is the number of items shown. *)
Theorem showing_range_counts_items :
  forall table closure st,
    1 <= currentPage st -> 0 < itemsPerPage st ->
    currentPage closure = currentPage st ->
    itemsPerPage closure = itemsPerPage st ->
    let st' := fetchInventoryFrom (Store.select table) closure st in
    items st' <> [] ->
    showingFrom st' = req_from (buildRequest closure) + 1
    /\ showingTo st' - showingFrom st' + 1 = Z.of_nat (List.length (items st'))
    /\ showingTo st' <= totalItems st'.
Proof.
  intros table closure st Hp Hs Hcp Hcs st' Hne. subst st'.
  unfold fetchInventoryFrom, Store.select in *.
  cbn [resp_error resp_data resp_count] in *.
  rewrite count_or_zero_some in *.
  set (matching := filter (Store.matches (buildRequest closure)) table) in *.
  assert (Hfrom : req_from (buildRequest closure)
                  = (currentPage st - 1) * itemsPerPage st)
    by (unfold buildRequest; cbn [req_from]; now rewrite Hcp, Hcs).
  assert (Hto : req_to (buildRequest closure)
                = (currentPage st - 1) * itemsPerPage st + itemsPerPage st - 1)
    by (unfold buildRequest; cbn [req_to]; now rewrite Hcp, Hcs).
  rewrite Hfrom, Hto in *.
  set (rows := Store.range ((currentPage st - 1) * itemsPerPage st)
                 ((currentPage st - 1) * itemsPerPage st + itemsPerPage st - 1)
                 (Store.order_by_name matching)) in *.
  assert (Hlen : Z.of_nat (List.length rows)
                 = Z.max 0
                     (Z.min (itemsPerPage st)
                        (Z.of_nat (List.length matching)
                         - (currentPage st - 1) * itemsPerPage st))).
  { subst rows. rewrite length_range; [| nia | lia].
    rewrite length_order_by_name. f_equal. f_equal. lia. }
  clearbody rows. unfold showingFrom, showingTo.
  destruct st as [i cs ws l p s t q fc fw e]. cbn in *.
  rewrite length_map in *.
  destruct rows as [| r rs]; [contradiction Hne; reflexivity |].
  cbn [List.length Nat.ltb Nat.leb] in *. lia.
Qed.

(** A fetch left over from an older render (the delayed search of the
    first page, arriving once the page has moved to the second) leaves
    the rows of the first page under the caption of the second. *)
Example caption_after_a_stale_fetch :
  let st' :=
    fetchInventoryFrom (Store.select Samples.stock) Scenes.pairs
      (setTotalItems (setCurrentPage Scenes.pairs 2) 3) in
  map e_name (items st') = ["Anvil"; "Crate"]
  /\ showingFrom st' = 3 /\ showingTo st' = 3.
Proof. repeat split. Qed.

(** X7: the category cell of the table shows the row's stored category
    name whenever that name is non-empty, whether or not the catalog knows
    it, and "N/A" otherwise; the warehouse cell does the same with "Main"
    as its fallback. *)
Theorem cells_show_stored_names :
  forall categories warehouses item,
    let shown := enhance categories warehouses item in
    categoryCell shown
    = match item_category item with
      | Some n => if String.eqb n "" then "N/A" else n
      | None => "N/A"
      end
    /\ warehouseCell shown
       = match item_warehouse item with
         | Some n => if String.eqb n "" then "Main" else n
         | None => "Main"
         end.
Proof.
  assert (Hcell : forall catalog name fallback,
            name_or (attach catalog name) fallback
            = match name with
              | Some n => if String.eqb n "" then fallback else n
              | None => fallback
              end).
  { intros catalog [n |] fallback; [| reflexivity].
    unfold attach, truthy_string.
    destruct (String.eqb_spec n "") as [-> | Hn]; [reflexivity |].
    cbn [negb]. destruct (find_by_name catalog n) as [c |] eqn:Hf.
    - apply find_by_name_some in Hf. destruct Hf as [_ Hname].
      unfold name_or, of_reference. cbn [att_name]. rewrite Hname.
      unfold truthy_string.
      destruct (String.eqb_spec n ""); [contradiction | reflexivity].
    - unfold name_or. cbn [att_name]. unfold truthy_string.
      destruct (String.eqb_spec n ""); [contradiction | reflexivity]. }
  intros categories warehouses item shown. subst shown.
  unfold categoryCell, warehouseCell, enhance. cbn [e_category e_warehouse].
  split; apply Hcell.
Qed.

End FetchFacts.

(** ** Editing, attaching and uploading *)

Section UploadFacts.
Import JS ImageCompressor Reconciler Upload Forms.

Lemma handleEditChange_keeps_id_and_file parseFloat form name value :
  form_id (handleEditChange parseFloat form name value) = form_id form
  /\ form_file (handleEditChange parseFloat form name value) = form_file form.
Proof.
  unfold handleEditChange, setField. destruct form.
  destruct (is_numeric_field name);
    repeat match goal with
           | |- context [if ?b then _ else _] => destruct b
           end; split; reflexivity.
Qed.

Lemma editAll_keeps_id_and_file parseFloat edits form :
  form_id (editAll parseFloat form edits) = form_id form
  /\ form_file (editAll parseFloat form edits) = form_file form.
Proof.
  unfold editAll. revert form.
  induction edits as [| e rest IH]; intros form; cbn [fold_left].
  - split; reflexivity.
  - destruct (IH (handleEditChange parseFloat form (fst e) (snd e)))
      as [Hid Hfile].
    destruct (handleEditChange_keeps_id_and_file parseFloat form
                (fst e) (snd e)) as [Hid' Hfile'].
    split; congruence.
Qed.

(** X8: whatever is typed or chosen in the inputs of the edit form, in any
    number and order, saving sends an update addressed to the id of the
    item that was opened; no edit attaches a file, so the save reaches the
    store without any upload. *)
Theorem edits_keep_the_target :
  forall parseFloat uploadImage categories warehouses item edits,
    Forall (fun e => In (fst e) inputNames) edits ->
    exists data,
      saveEditedItem uploadImage categories warehouses
        (editAll parseFloat (openEditModal item) edits)
      = inr {| update_target := Some (e_id item); update_data := data |}.
Proof.
  intros parseFloat uploadImage categories warehouses item edits _.
  destruct (editAll_keeps_id_and_file parseFloat edits (openEditModal item))
    as [Hid Hfile].
  unfold saveEditedItem, thumbnailUrl_of. rewrite Hfile, Hid.
  cbn [openEditModal form_file form_id]. eexists. reflexivity.
Qed.

Lemma split_dot_nonempty (s : string) : split_dot s <> [].
Proof.
  destruct s as [| c rest]; cbn [split_dot]; [discriminate |].
  destruct (Ascii.eqb c "."); [discriminate |].
  destruct (split_dot rest); discriminate.
Qed.

Lemma last_cons_nonempty (x : string) (l : list string) :
  l <> [] -> List.last (x :: l) EmptyString = List.last l EmptyString.
Proof. destruct l; [contradiction | reflexivity]. Qed.

Lemma contains_dot_cons (c : ascii) (rest : string) :
  contains_dot (String c rest) = Ascii.eqb "." c || contains_dot rest.
Proof. reflexivity. Qed.

Lemma split_dot_without_dot (s : string) :
  contains_dot s = false -> split_dot s = [s].
Proof.
  induction s as [| c rest IH]; intros H; [reflexivity |].
  rewrite contains_dot_cons in H. apply orb_false_iff in H.
  destruct H as [Hc Hrest]. cbn [split_dot].
  rewrite Ascii.eqb_sym, Hc, (IH Hrest). reflexivity.
Qed.

Lemma split_dot_with_dot (s : string) :
  contains_dot s = true ->
  exists first second others, split_dot s = first :: second :: others.
Proof.
  induction s as [| c rest IH]; intros H; [discriminate |].
  rewrite contains_dot_cons in H. cbn [split_dot].
  destruct (Ascii.eqb_spec "." c) as [<- | Hc].
  - cbn. destruct (split_dot rest) as [| x xs] eqn:Hx.
    + now apply split_dot_nonempty in Hx.
    + now exists EmptyString, x, xs.
  - cbn [orb] in H. destruct (IH H) as (x & y & ys & Hx).
    destruct (Ascii.eqb_spec c "."); [congruence |].
    rewrite Hx. now exists (String c x), y, ys.
Qed.

Lemma fileExt_step (c : ascii) (rest : string) :
  contains_dot rest = true -> fileExt (String c rest) = fileExt rest.
Proof.
  intros H. destruct (split_dot_with_dot rest H) as (x & y & ys & Hx).
  unfold fileExt. cbn [split_dot].
  destruct (Ascii.eqb c "."); rewrite Hx; reflexivity.
Qed.

Lemma fileExt_after_dot (rest : string) :
  fileExt (String "." rest) = fileExt rest.
Proof.
  unfold fileExt. cbn [split_dot]. cbn.
  destruct (split_dot rest) eqn:H; [now apply split_dot_nonempty in H |].
  reflexivity.
Qed.

(** X9: the extension that [uploadImage] takes from a file name is what
    follows the last dot: it contains no dot and the name is a stem, a dot
    and the extension; a name without any dot is taken whole as its own
    extension. *)
Theorem fileExt_is_last_segment :
  forall name,
    contains_dot (fileExt name) = false
    /\ (contains_dot name = false -> fileExt name = name)
    /\ (contains_dot name = true ->
        exists stem, name = (stem ++ "." ++ fileExt name)%string).
Proof.
  intros name.
  assert (Hplain : forall s, contains_dot s = false -> fileExt s = s).
  { intros s H. unfold fileExt. now rewrite (split_dot_without_dot s H). }
  split; [| split].
  - induction name as [| c rest IH]; [reflexivity |].
    destruct (contains_dot rest) eqn:Hrest.
    + now rewrite (fileExt_step c rest Hrest).
    + destruct (Ascii.eqb_spec "." c) as [<- | Hc].
      * rewrite fileExt_after_dot. now rewrite (Hplain rest Hrest).
      * assert (H : contains_dot (String c rest) = false).
        { rewrite contains_dot_cons, Hrest.
          destruct (Ascii.eqb_spec "." c); [contradiction | reflexivity]. }
        now rewrite (Hplain _ H).
  - apply Hplain.
  - induction name as [| c rest IH]; intros H; [discriminate |].
    destruct (contains_dot rest) eqn:Hrest.
    + destruct (IH eq_refl) as [stem Hstem].
      exists (String c stem). rewrite (fileExt_step c rest Hrest).
      change (String c rest = String c (stem ++ "." ++ fileExt rest)%string).
      f_equal. exact Hstem.
    + rewrite contains_dot_cons, Hrest, orb_false_r in H.
      apply Ascii.eqb_eq in H. subst c.
      exists EmptyString. rewrite fileExt_after_dot, (Hplain rest Hrest).
      reflexivity.
Qed.

(** X10: when a file is attached to the edit form, the thumbnail URL
    typed in the form is ignored: the file is uploaded under the path made
    of the drawn identifier, a dot and the extension of its name; if the
    store refuses it the save stops with the store's message, before any
    update; otherwise the update carries the public URL of that path as
    its thumbnail. *)
Theorem attached_file_replaces_thumbnail :
  forall uuid storageUpload getPublicUrl categories warehouses form file,
    form_file form = Some file ->
    let path := (uuid ++ "." ++ fileExt (file_name file))%string in
    let saved :=
      saveEditedItem (uploadFile uuid storageUpload getPublicUrl)
        categories warehouses form in
    (forall message,
        storageUpload path file = Some message -> saved = inl message)
    /\ (storageUpload path file = None ->
        exists request,
          saved = inr request
          /\ update_target request = form_id form
          /\ row_thumbnail (update_data request) = Some (getPublicUrl path)).
Proof.
  intros uuid storageUpload getPublicUrl categories warehouses form file
    Hfile path saved.
  subst saved. unfold saveEditedItem, thumbnailUrl_of, uploadFile, filePath.
  rewrite Hfile. fold path. split.
  - intros message Hup. now rewrite Hup.
  - intros Hup. rewrite Hup. eexists. split; [reflexivity |].
    split; [reflexivity |].
    cbn [update_data]. unfold updateData.
    destruct (truthy_formId (form_category_id form));
      [destruct (find_by_id categories _) |];
      (destruct (truthy_formId (form_warehouse_id form));
       [destruct (find_by_id warehouses _) |]); reflexivity.
Qed.

(** X11: whatever file [handleFileChange] puts on the form, its type was a
    supported one, it has the name of the selected file, and it is either
    the selected file itself or, for a file over the budget, a file of
    type [image/jpeg]; so the upload path keeps the selected file's
    extension even when the content has been re-encoded as JPEG. *)
Theorem attached_file_keeps_name :
  forall decodeImage toBlob now uuid selected attached,
    handleFileChange decodeImage toBlob now (Some selected)
    = inr (Some attached) ->
    In (file_type selected) SUPPORTED_FORMATS
    /\ file_name attached = file_name selected
    /\ (attached = selected
        \/ (MAX_FILE_SIZE < size selected
            /\ file_type attached = "image/jpeg"
            /\ file_lastModified attached = now))
    /\ filePath uuid attached = filePath uuid selected.
Proof.
  intros decodeImage toBlob now uuid selected attached H.
  unfold handleFileChange in H.
  destruct (existsb (String.eqb (file_type selected)) SUPPORTED_FORMATS)
    eqn:Hfmt; [| discriminate].
  assert (Hin : In (file_type selected) SUPPORTED_FORMATS).
  { apply existsb_exists in Hfmt. destruct Hfmt as [x [Hx Heq]].
    apply String.eqb_eq in Heq. now subst x. }
  unfold optimizeImage in H.
  destruct (Z.ltb_spec MAX_FILE_SIZE (size selected)) as [Hbig | Hsmall].
  - destruct (decodeImage selected) as [[w h] |]; [| discriminate].
    destruct (targetDimensions w h) as [width height].
    destruct (toBlob selected width height) as [blob |]; [| discriminate].
    injection H as <-. cbn [file_name]. unfold filePath. cbn [file_name].
    repeat split; auto.
  - injection H as <-. repeat split; auto.
Qed.

(** X12: [handleFileChange] reports an error in two cases only, a type
    outside the supported formats (whatever the size) and an encoder that
    returns no blob; a supported file over the budget that the browser
    cannot decode is dropped without any message and without a file on
    the form. *)
Theorem file_errors_and_silent_drop :
  forall decodeImage toBlob now selected,
    (forall message,
        handleFileChange decodeImage toBlob now (Some selected) = inl message ->
        (~ In (file_type selected) SUPPORTED_FORMATS
         /\ message
            = "Unsupported file format. Please upload a JPG, JPEG, PNG, or GIF.")
        \/ (MAX_FILE_SIZE < size selected
            /\ decodeImage selected <> None
            /\ message = "Failed to optimize image"))
    /\ (~ In (file_type selected) SUPPORTED_FORMATS ->
        exists message,
          handleFileChange decodeImage toBlob now (Some selected)
          = inl message)
    /\ (In (file_type selected) SUPPORTED_FORMATS ->
        MAX_FILE_SIZE < size selected -> decodeImage selected = None ->
        handleFileChange decodeImage toBlob now (Some selected) = inr None).
Proof.
  intros decodeImage toBlob now selected.
  assert (Hfmt : existsb (String.eqb (file_type selected)) SUPPORTED_FORMATS
                 = true <-> In (file_type selected) SUPPORTED_FORMATS).
  { rewrite existsb_exists. split.
    - intros [x [Hx Heq]]. apply String.eqb_eq in Heq. now subst x.
    - intros Hin. exists (file_type selected). split; [exact Hin |].
      apply String.eqb_refl. }
  unfold handleFileChange, optimizeImage.
  destruct (existsb (String.eqb (file_type selected)) SUPPORTED_FORMATS)
    eqn:Hsup.
  - assert (Hin : In (file_type selected) SUPPORTED_FORMATS)
      by now apply Hfmt.
    split; [| split].
    + intros message H. right.
      destruct (Z.ltb_spec MAX_FILE_SIZE (size selected)); [| discriminate].
      destruct (decodeImage selected) as [[w h] |]; [| discriminate].
      destruct (targetDimensions w h) as [width height].
      destruct (toBlob selected width height); [discriminate |].
      injection H as <-. repeat split; [assumption | discriminate].
    + intros Hnot. contradiction.
    + intros _ Hbig Hdec.
      destruct (Z.ltb_spec MAX_FILE_SIZE (size selected)); [| lia].
      now rewrite Hdec.
  - assert (Hnot : ~ In (file_type selected) SUPPORTED_FORMATS).
    { intros Hin. apply Hfmt in Hin. discriminate. }
    split; [| split].
    + intros message H. left. injection H as <-. now split.
    + intros _. eexists. reflexivity.
    + intros Hin. contradiction.
Qed.

End UploadFacts.

(** ** Catalogs: refresh, extension and the snapshot used by a fetch *)

Section CatalogFacts.
Import JS Reconciler Page Catalog.

Lemma find_app_first {A : Type} (f : A -> bool) (l l' : list A) :
  find f (l ++ l')
  = match find f l with
    | Some x => Some x
    | None => find f l'
    end.
Proof.
  induction l as [| a l IH]; cbn [find app]; [reflexivity |].
  destruct (f a); [reflexivity | exact IH].
Qed.

(** X14: a successful [addCategory] appends the created rows to the
    catalog, clears and closes the dialog, and leaves the error slot, the
    items and the warehouses alone; every name and every identifier that
    resolved before resolves to the same entry afterwards, and the others
    are looked up among the created rows.  A refused insert changes
    nothing but the error slot: the catalog is the same and the dialog
    stays open with the typed name.  [addWarehouse] does the same on the
    warehouses. *)
Theorem adding_extends_the_catalog :
  forall insert st dialog,
    let added := addCategory insert st dialog in
    let stored := addWarehouse insert st dialog in
    match insert (dialog_name dialog) with
    | inl message =>
        categories (fst added) = categories st
        /\ warehouses (fst stored) = warehouses st
        /\ error (fst added) = Some message
        /\ error (fst stored) = Some message
        /\ snd added = dialog /\ snd stored = dialog
    | inr data =>
        categories (fst added) = (categories st ++ data)%list
        /\ warehouses (fst stored) = (warehouses st ++ data)%list
        /\ (forall n,
               find_by_name (categories (fst added)) n
               = match find_by_name (categories st) n with
                 | Some c => Some c
                 | None => find_by_name data n
                 end)
        /\ (forall v,
               find_by_id (categories (fst added)) v
               = match find_by_id (categories st) v with
                 | Some c => Some c
                 | None => find_by_id data v
                 end)
        /\ (forall n,
               find_by_name (warehouses (fst stored)) n
               = match find_by_name (warehouses st) n with
                 | Some w => Some w
                 | None => find_by_name data n
                 end)
        /\ (forall v,
               find_by_id (warehouses (fst stored)) v
               = match find_by_id (warehouses st) v with
                 | Some w => Some w
                 | None => find_by_id data v
                 end)
        /\ error (fst added) = error st /\ error (fst stored) = error st
        /\ snd added = {| dialog_name := ""; dialog_open := false |}
        /\ snd stored = {| dialog_name := ""; dialog_open := false |}
    end
    /\ items (fst added) = items st /\ items (fst stored) = items st
    /\ warehouses (fst added) = warehouses st
    /\ categories (fst stored) = categories st.
Proof.
  intros insert st dialog added stored. subst added stored.
  unfold addCategory, addWarehouse.
  destruct (insert (dialog_name dialog)) as [message | data];
    cbn [fst snd].
  - destruct st. repeat split.
  - assert (Hcat : categories (setCategories st (categories st ++ data)%list)
                   = (categories st ++ data)%list)
      by (destruct st; reflexivity).
    assert (Hwh : warehouses (setWarehouses st (warehouses st ++ data)%list)
                  = (warehouses st ++ data)%list)
      by (destruct st; reflexivity).
    rewrite Hcat, Hwh. unfold find_by_name, find_by_id.
    repeat split; try (destruct st; reflexivity);
      intros; apply find_app_first.
Qed.

(** X15: [loadData] goes through its three reads whatever fails: each
    catalog is replaced when its read succeeds (by the empty list for null
    data) and kept when it fails; the inventory is fetched in both cases;
    the error slot ends with the message of the last read that failed, and
    keeps its earlier content when none did. *)
Theorem loadData_survives_failed_reads :
  forall categoryRead warehouseRead select render,
    let st' := loadData categoryRead warehouseRead select render in
    let response := select (buildRequest render) in
    categories st'
    = match cat_error categoryRead with
      | Some _ => categories render
      | None => data_or_empty (cat_data categoryRead)
      end
    /\ warehouses st'
       = match cat_error warehouseRead with
         | Some _ => warehouses render
         | None => data_or_empty (cat_data warehouseRead)
         end
    /\ error st'
       = match resp_error response, cat_error warehouseRead,
               cat_error categoryRead with
         | Some message, _, _ => Some message
         | None, Some message, _ => Some message
         | None, None, Some message => Some message
         | None, None, None => error render
         end
    /\ (resp_error response = None ->
        totalItems st' = count_or_zero (resp_count response)
        /\ List.length (items st')
           = List.length (match resp_data response with
                          | Some rows => rows
                          | None => []
                          end))
    /\ loading st' = false.
Proof.
  intros categoryRead warehouseRead select render st' response.
  subst st' response.
  unfold loadData, fetchInventoryFrom, fetchCategories, fetchWarehouses.
  destruct (resp_error (select (buildRequest render))) as [mi |];
    destruct (cat_error warehouseRead) as [mw |];
    destruct (cat_error categoryRead) as [mc |];
    destruct (resp_data (select (buildRequest render))) as [rows |];
    destruct render; cbn; rewrite ?length_map;
    repeat split; intros; try discriminate; try reflexivity.
Qed.

(** The catalogs that the fetch of [loadData] attaches are those of the
    render that started it. *)
Lemma loadData_attaches_the_render_catalogs_aux :
  forall categoryRead warehouseRead select render rows,
    resp_error (select (buildRequest render)) = None ->
    resp_data (select (buildRequest render)) = Some rows ->
    items (loadData categoryRead warehouseRead select render)
    = map (enhance (categories render) (warehouses render)) rows
    /\ (categories render = [] -> warehouses render = [] ->
        Forall (fun e =>
                  e_category_id e = IdString ""
                  /\ e_warehouse_id e = IdString ""
                  /\ (forall o, e_category e = Some o -> att_id o = None)
                  /\ (forall o, e_warehouse e = Some o -> att_id o = None))
          (items (loadData categoryRead warehouseRead select render))).
Proof.
  intros categoryRead warehouseRead select render rows Hok Hdata.
  assert (Hitems : items (loadData categoryRead warehouseRead select render)
                   = map (enhance (categories render) (warehouses render))
                       rows).
  { unfold loadData, fetchInventoryFrom. rewrite Hok, Hdata.
    unfold fetchCategories, fetchWarehouses.
    destruct (cat_error categoryRead); destruct (cat_error warehouseRead);
      destruct render; reflexivity. }
  split; [exact Hitems |].
  intros Hc Hw. rewrite Hitems, Hc, Hw. apply Forall_map.
  apply Forall_forall. intros item _.
  assert (Hattach : forall name,
            attach [] name = None
            \/ exists n, attach [] name = Some (mkAttached None n)).
  { intros [n |]; [| now left]. unfold attach.
    destruct (truthy_string n); [right; now exists n | now left]. }
  unfold enhance.
  cbn [e_category_id e_warehouse_id e_category e_warehouse].
  destruct (Hattach (item_category item)) as [-> | [n ->]];
    destruct (Hattach (item_warehouse item)) as [-> | [m ->]];
    repeat split; try reflexivity; intros o Ho; try discriminate;
    injection Ho as <-; reflexivity.
Qed.


(** X16: the inventory fetch that [loadData] ends with attaches the
    catalogs of the render that started it, not the catalogs that
    [loadData] has just read; on the first load those are empty, so every
    published item gets an empty [category_id] and [warehouse_id] and no
    resolved identifier, whatever the catalog reads returned. *)
Theorem loadData_attaches_the_render_catalogs :
  forall categoryRead warehouseRead select render rows,
    resp_error (select (buildRequest render)) = None ->
    resp_data (select (buildRequest render)) = Some rows ->
    items (loadData categoryRead warehouseRead select render)
    = map (enhance (categories render) (warehouses render)) rows
    /\ (categories render = [] -> warehouses render = [] ->
        Forall (fun e =>
                  e_category_id e = IdString ""
                  /\ e_warehouse_id e = IdString ""
                  /\ (forall o, e_category e = Some o -> att_id o = None)
                  /\ (forall o, e_warehouse e = Some o -> att_id o = None))
          (items (loadData categoryRead warehouseRead select render))).
Proof.
  intros categoryRead warehouseRead select render rows Hok Hdata.
  assert (Hitems : items (loadData categoryRead warehouseRead select render)
                   = map (enhance (categories render) (warehouses render))
                       rows).
  { unfold loadData, fetchInventoryFrom. rewrite Hok, Hdata.
    unfold fetchCategories, fetchWarehouses.
    destruct (cat_error categoryRead); destruct (cat_error warehouseRead);
      destruct render; reflexivity. }
  split; [exact Hitems |].
  intros Hc Hw. rewrite Hitems, Hc, Hw. apply Forall_map.
  apply Forall_forall. intros item _.
  assert (Hattach : forall name,
            attach [] name = None
            \/ exists n, attach [] name = Some (mkAttached None n)).
  { intros [n |]; [| now left]. unfold attach.
    destruct (truthy_string n); [right; now exists n | now left]. }
  unfold enhance.
  cbn [e_category_id e_warehouse_id e_category e_warehouse].
  destruct (Hattach (item_category item)) as [-> | [n ->]];
    destruct (Hattach (item_warehouse item)) as [-> | [m ->]];
    repeat split; try reflexivity; intros o Ho; try discriminate;
    injection Ho as <-; reflexivity.
Qed.

End CatalogFacts.

(** ** Fetches over time *)

Section LifecycleFacts.
Import JS Reconciler Page Effects Lifecycle.

Lemma page_advance t rt : page (advance t rt) = page rt.
Proof.
  unfold advance. destruct (pendingTimer rt) as [due |]; [| reflexivity].
  destruct (due <=? t); reflexivity.
Qed.

(** An action that changes the term or a filter while no timeout is due:
    [loadData] fetches at once and the delayed search is set again. *)
Lemma dispatch_filter_change st timer log t a :
  match timer with Some due => t < due | None => True end ->
  filters_changed st (handle st a) = true ->
  dispatch (mkRuntime st timer log) (t, a)
  = mkRuntime (handle st a) (Some (t + 500)) ((t, LoadData) :: log).
Proof.
  intros Hdue Hchanged. unfold dispatch.
  assert (Hadv : advance t (mkRuntime st timer log) = mkRuntime st timer log).
  { unfold advance. cbn [pendingTimer]. destruct timer as [due |];
      [| reflexivity].
    destruct (Z.leb_spec due t); [lia | reflexivity]. }
  rewrite Hadv. unfold commit, loadData_deps_changed, delaySearch_deps_changed.
  cbn [page pendingTimer fetchLog].
  rewrite Hchanged, orb_true_r. reflexivity.
Qed.

Lemma run_burst events :
  forall st timer log t0,
    match timer with Some due => due = t0 + 500 | None => True end ->
    burst st t0 events ->
    run events (mkRuntime st timer log)
    = mkRuntime (handleAll st events)
        (match events with
         | [] => timer
         | _ :: _ => Some (lastTime t0 events + 500)
         end)
        (rev (map (fun e => (fst e, LoadData)) events) ++ log).
Proof.
  induction events as [| [t a] rest IH]; intros st timer log t0 Htimer Hburst.
  - reflexivity.
  - destruct Hburst as (Ht & Hchanged & Hrest).
    unfold run. cbn [fold_left].
    rewrite dispatch_filter_change;
      [| destruct timer as [due |]; [subst due; lia | exact I] | exact Hchanged].
    fold (run rest (mkRuntime (handle st a) (Some (t + 500))
                      ((t, LoadData) :: log))).
    rewrite (IH (handle st a) (Some (t + 500)) ((t, LoadData) :: log) t
               eq_refl Hrest).
    unfold handleAll, lastTime. cbn [fold_left map rev fst snd].
    rewrite <- app_assoc. cbn [app].
    destruct rest; reflexivity.
Qed.

(** X17: a burst of changes of the search term or of a filter, each less
    than 500ms after the previous one, started on a page whose pending
    timeout (if any, as right after mount) was set at the start of the
    burst: [fetchInventory] is called at once at every change, and once
    more 500ms after the last one; nothing stays pending. *)
Theorem burst_fetches_once_per_change_plus_one :
  forall e es rt t0 t,
    (forall due, pendingTimer rt = Some due -> due = t0 + 500) ->
    burst (page rt) t0 (e :: es) ->
    lastTime t0 (e :: es) + 500 <= t ->
    let rt' := advance t (run (e :: es) rt) in
    fetchLog rt'
    = (lastTime t0 (e :: es) + 500, DelaySearch)
      :: rev (map (fun e => (fst e, LoadData)) (e :: es)) ++ fetchLog rt
    /\ pendingTimer rt' = None
    /\ page rt' = handleAll (page rt) (e :: es).
Proof.
  intros e es rt t0 t Htimer Hburst Ht rt'. subst rt'.
  destruct rt as [st timer log]. cbn [page pendingTimer fetchLog] in *.
  rewrite (run_burst (e :: es) st timer log t0);
    [| destruct timer as [due |]; [now apply Htimer | exact I] | exact Hburst].
  unfold advance. cbn [pendingTimer page fetchLog].
  destruct (Z.leb_spec (lastTime t0 (e :: es) + 500) t); [| lia].
  repeat split.
Qed.

Lemma filters_changed_setCurrentPage st page :
  filters_changed st (setCurrentPage st page) = false.
Proof.
  unfold filters_changed. destruct st. cbn. now rewrite !String.eqb_refl.
Qed.

(** X18: a click on a page within range and other than the current one
    is not debounced: [fetchInventory] is called at once, and a pending
    delayed search is neither cancelled nor moved, so it still fires at its
    own time; a click outside the range does nothing at all. *)
Theorem page_click_fetches_at_once :
  forall rt t target,
    let before := advance t rt in
    (1 <= target <= totalPages (page rt) ->
     target <> currentPage (page rt) ->
     dispatch rt (t, PageClick target)
     = mkRuntime (setCurrentPage (page rt) target) (pendingTimer before)
         ((t, LoadData) :: fetchLog before))
    /\ (target < 1 \/ totalPages (page rt) < target ->
        dispatch rt (t, PageClick target) = before).
Proof.
  intros rt t target before. subst before. unfold dispatch.
  rewrite page_advance. cbn [handle]. split.
  - intros Hrange Hmove. rewrite changePage_in_range by exact Hrange.
    unfold commit, loadData_deps_changed, delaySearch_deps_changed.
    rewrite filters_changed_setCurrentPage, currentPage_setCurrentPage.
    destruct (Z.eqb_spec (currentPage (page rt)) target); [congruence |].
    reflexivity.
  - intros Hout. rewrite changePage_out_of_range by exact Hout.
    unfold commit, loadData_deps_changed, delaySearch_deps_changed,
      filters_changed.
    rewrite Z.eqb_refl, !String.eqb_refl. cbn.
    rewrite <- (page_advance t rt). destruct (advance t rt). reflexivity.
Qed.

End LifecycleFacts.

(** ** The placeholder image *)

Section PlaceholderFacts.
Import JS Reconciler View.

Lemma hexDigits_unreserved (c : ascii) :
  unreserved (hexDigit (nat_of_ascii c / 16)) = true
  /\ unreserved (hexDigit (nat_of_ascii c mod 16)) = true.
Proof.
  destruct c as [[] [] [] [] [] [] [] []]; split; vm_compute; reflexivity.
Qed.

(** X19: the name that [getPlaceholderImage] puts in its URL is made of
    unreserved characters and percent signs only, so it holds no [&], [=],
    [#], [?], [/] or space that could end or alter the [name] parameter;
    a name made of unreserved characters is put there unchanged. *)
Theorem encoded_name_is_url_safe :
  forall name,
    (forall c, In c (list_ascii_of_string (encodeURIComponent name)) ->
               unreserved c = true \/ c = "%"%char)
    /\ (forall c, In c ["&"; "="; "#"; "?"; "/"; " "]%char ->
                  ~ In c (list_ascii_of_string (encodeURIComponent name)))
    /\ (Forall (fun c => unreserved c = true) (list_ascii_of_string name) ->
        encodeURIComponent name = name)
    /\ getPlaceholderImage name
       = ("https://ui-avatars.com/api/?name=" ++ encodeURIComponent name
            ++ "&background=random&color=fff&size=128")%string.
Proof.
  intros name.
  assert (Hsafe : forall c,
            In c (list_ascii_of_string (encodeURIComponent name)) ->
            unreserved c = true \/ c = "%"%char).
  { induction name as [| a rest IH]; intros c Hin; [contradiction |].
    cbn [encodeURIComponent] in Hin.
    destruct (unreserved a) eqn:Ha; cbn [list_ascii_of_string In] in Hin.
    - destruct Hin as [<- | Hin]; [now left | now apply IH].
    - destruct (hexDigits_unreserved a) as [Hhi Hlo].
      destruct Hin as [<- | [<- | [<- | Hin]]];
        [now right | now left | now left | now apply IH]. }
  split; [exact Hsafe |]. split; [| split; [| reflexivity]].
  - intros c Hc Hin. apply Hsafe in Hin.
    destruct Hc as [<- | [<- | [<- | [<- | [<- | [<- | []]]]]]];
      destruct Hin as [H | H]; discriminate H.
  - clear Hsafe.
    induction name as [| a rest IH]; intros Hall; [reflexivity |].
    cbn [list_ascii_of_string] in Hall. inversion Hall as [| x xs Ha Hrest];
      subst.
    cbn [encodeURIComponent]. rewrite Ha. f_equal. now apply IH.
Qed.

End PlaceholderFacts.

(** ** Pages and unresolved names *)

Section TilingFacts.
Import JS Reconciler Page.

Lemma firstn_add {A : Type} (a b : nat) (l : list A) :
  firstn (a + b) l = (firstn a l ++ firstn b (skipn a l))%list.
Proof.
  revert l. induction a as [| a IH]; intros l; [reflexivity |].
  destruct l as [| x l]; cbn [Nat.add firstn skipn app].
  - now rewrite firstn_nil.
  - now rewrite IH.
Qed.

Lemma items_of_page table st (k : nat) :
  0 < itemsPerPage st ->
  items (fetchInventory (Store.select table)
           (setCurrentPage st (Z.of_nat (S k))))
  = map (enhance (categories st) (warehouses st))
      (firstn (Z.to_nat (itemsPerPage st))
         (skipn (k * Z.to_nat (itemsPerPage st))
            (Store.order_by_name
               (filter (Store.matches (buildRequest st)) table)))).
Proof.
  intros Hs. rewrite fetchInventory_select. destruct st as
    [i cs ws l p s t q fc fw e].
  cbn [setCurrentPage setLoading setTotalItems setItems items categories
       warehouses itemsPerPage] in *.
  unfold Store.range, buildRequest.
  cbn [req_from req_to currentPage itemsPerPage].
  f_equal. f_equal; [f_equal; nia | f_equal; nia].
Qed.

(** X20: against the store, the pages do not overlap and leave no gap:
    the items published for pages 1 to [n], put end to end, are the first
    [n] times [itemsPerPage] matching rows in name order, each enriched
    once; taking as many pages as [totalPages] says gives every matching
    row. *)
Theorem pages_tile_the_matching_rows :
  forall table st,
    0 < itemsPerPage st ->
    let whole :=
      map (enhance (categories st) (warehouses st))
        (Store.order_by_name
           (filter (Store.matches (buildRequest st)) table)) in
    let pageItems (k : nat) :=
      items (fetchInventory (Store.select table)
               (setCurrentPage st (Z.of_nat k))) in
    (forall n,
        List.concat (map pageItems (seq 1 n))
        = firstn (n * Z.to_nat (itemsPerPage st)) whole)
    /\ List.concat
         (map pageItems
            (seq 1 (Z.to_nat
                      (totalPages
                         (fetchInventory (Store.select table) st)))))
       = whole.
Proof.
  intros table st Hs whole pageItems.
  assert (Htile : forall n,
             List.concat (map pageItems (seq 1 n))
             = firstn (n * Z.to_nat (itemsPerPage st)) whole).
  { induction n as [| n IH]; [reflexivity |].
    rewrite seq_S, map_app, concat_app, IH. cbn [map List.concat].
    rewrite app_nil_r. subst pageItems. cbn beta.
    change (1 + n)%nat with (S n).
    rewrite (items_of_page table st n Hs). subst whole.
    replace (S n * Z.to_nat (itemsPerPage st))%nat
      with (n * Z.to_nat (itemsPerPage st) + Z.to_nat (itemsPerPage st))%nat
      by lia.
    rewrite firstn_add. f_equal.
    now rewrite skipn_map, firstn_map. }
  split; [exact Htile |].
  rewrite Htile. apply firstn_all2. subst whole.
  rewrite length_map, length_order_by_name.
  set (st' := fetchInventory (Store.select table) st).
  assert (Hper : itemsPerPage st' = itemsPerPage st).
  { subst st'. rewrite fetchInventory_select. destruct st. reflexivity. }
  assert (Htotal : totalItems st'
                   = Z.of_nat
                       (List.length
                          (filter (Store.matches (buildRequest st)) table))).
  { subst st'. rewrite fetchInventory_select. destruct st. reflexivity. }
  assert (Hs' : 0 < itemsPerPage st') by lia.
  destruct (totalPages_ceiling st' Hs') as [_ Hhigh].
  rewrite Hper, Htotal in Hhigh. nia.
Qed.

(** X21: a category or warehouse name that the catalog does not resolve
    (orphaned, null or empty) is never written back: for such a row the
    update built from the untouched edit form carries no [category]
    (respectively [warehouse]) key at all, neither the stored text nor a
    null. *)
Theorem unresolved_names_are_not_written :
  forall categories warehouses item thumbnailUrl,
    let form := openEditModal (enhance categories warehouses item) in
    let written := updateData categories warehouses form thumbnailUrl in
    ((forall c, In c categories -> Some (ref_name c) <> item_category item) ->
     row_category written = None)
    /\ ((forall w, In w warehouses -> Some (ref_name w) <> item_warehouse item) ->
        row_warehouse written = None).
Proof.
  assert (Hid : forall catalog name,
            (forall c, In c catalog -> Some (ref_name c) <> name) ->
            id_or_empty (attach catalog name) = IdString "").
  { intros catalog [n |] Hno; [| reflexivity].
    unfold attach. destruct (truthy_string n); [| reflexivity].
    rewrite find_by_name_none; [reflexivity |].
    intros c Hc Heq. apply (Hno c Hc). now rewrite Heq. }
  intros categories warehouses item thumbnailUrl form written.
  subst written form. unfold updateData, openEditModal, enhance.
  cbn [form_category_id form_warehouse_id e_category_id e_warehouse_id].
  split; intros Hno; rewrite (Hid _ _ Hno); cbn [truthy_formId truthy_string
    String.eqb negb].
  - destruct (truthy_formId (id_or_empty (attach warehouses
                                            (item_warehouse item))));
      [destruct (find_by_id warehouses _) |]; reflexivity.
  - destruct (truthy_formId (id_or_empty (attach categories
                                            (item_category item))));
      [destruct (find_by_id categories _) |]; reflexivity.
Qed.

End TilingFacts.

(** ** Instances *)

Lemma pageNumbers_window_witness :
  In 5 (View.pageNumbers Scenes.fifthOfEight)
  /\ List.length (View.pageNumbers Scenes.fifthOfEight) = 5%nat.
Proof.
  destruct (pageNumbers_window Scenes.fifthOfEight) as (_ & Hlen & Hin & _).
  - vm_compute. split; discriminate.
  - split; [exact Hin | exact Hlen].
Defined.

Lemma pager_buttons_stay_in_range_witness :
  Page.currentPage (View.onClick Scenes.fifthOfEight View.Next) = 6.
Proof.
  destruct (pager_buttons_stay_in_range Scenes.fifthOfEight View.Next)
    as (_ & _ & H).
  - vm_compute. split; discriminate.
  - intros n Hn. discriminate Hn.
  - exact H.
Defined.

Lemma reachable_window_witness :
  0 <= Page.req_from
         (Page.buildRequest
            (Page.handle
               (Page.fetchInventory (Store.select Samples.stock)
                  Page.initialState)
               (Page.PageClick 3))).
Proof.
  apply (reachable_window
           (Page.handle
              (Page.fetchInventory (Store.select Samples.stock)
                 Page.initialState)
              (Page.PageClick 3))).
  apply Lifecycle.reach_action.
  rewrite <- fetchInventoryFrom_same.
  apply Lifecycle.reach_fetch; apply Lifecycle.reach_initial.
Defined.

Lemma fetchInventory_error_keeps_list_witness :
  Page.error (Page.fetchInventory Scenes.failing Scenes.fifthOfEight)
  = Some "network down"
  /\ Page.totalItems (Page.fetchInventory Scenes.failing Scenes.fifthOfEight)
     = 73.
Proof.
  destruct (fetchInventory_error_keeps_list Scenes.failing Scenes.fifthOfEight
              "network down" eq_refl)
    as (_ & Htotal & _ & _ & _ & _ & _ & _ & Herr & _).
  split; [exact Herr | exact Htotal].
Defined.

Lemma fetchInventory_success_publishes_rows_witness :
  map Reconciler.e_name
    (Page.items (Page.fetchInventory (Store.select Samples.stock) Scenes.pairs))
  = ["Anvil"; "Crate"].
Proof.
  destruct (fetchInventory_success_publishes_rows (Store.select Samples.stock)
              Scenes.pairs eq_refl) as (_ & Hnames & _).
  exact Hnames.
Defined.

Lemma showing_range_counts_items_witness :
  View.showingTo
    (Page.fetchInventory (Store.select Samples.stock) Scenes.pairs)
  - View.showingFrom
      (Page.fetchInventory (Store.select Samples.stock) Scenes.pairs) + 1
  = 2.
Proof.
  rewrite <- fetchInventoryFrom_same.
  destruct (showing_range_counts_items Samples.stock Scenes.pairs Scenes.pairs)
    as (_ & Hcount & _).
  - vm_compute. discriminate.
  - reflexivity.
  - reflexivity.
  - reflexivity.
  - vm_compute. discriminate.
  - exact Hcount.
Defined.

Lemma edits_keep_the_target_witness :
  exists data,
    Reconciler.saveEditedItem Samples.offline Samples.categories
      Samples.warehouses
      (Forms.editAll Samples.notANumber
         (Reconciler.openEditModal
            (Reconciler.enhance Samples.categories Samples.warehouses
               Samples.hammer))
         [("quantity", "7"); ("name", "Mallet"); ("category_id", "1")])
    = inr (Reconciler.mkUpdate (Some 7) data).
Proof.
  apply (edits_keep_the_target Samples.notANumber Samples.offline
           Samples.categories Samples.warehouses
           (Reconciler.enhance Samples.categories Samples.warehouses
              Samples.hammer)).
  repeat constructor; simpl; tauto.
Defined.

Lemma fileExt_is_last_segment_witness :
  exists stem,
    "beach.holiday.png" = (stem ++ "." ++ Upload.fileExt "beach.holiday.png")%string.
Proof.
  apply (proj2 (proj2 (fileExt_is_last_segment "beach.holiday.png"))).
  reflexivity.
Defined.

Lemma attached_file_replaces_thumbnail_witness :
  exists request,
    Reconciler.saveEditedItem
      (Upload.uploadFile "f47ac10b" Scenes.accepting Scenes.cdn)
      Samples.categories Samples.warehouses Scenes.withPhoto
    = inr request
    /\ Reconciler.update_target request = Some 7
    /\ Reconciler.row_thumbnail (Reconciler.update_data request)
       = Some "https://cdn.example/f47ac10b.png".
Proof.
  apply (proj2 (attached_file_replaces_thumbnail "f47ac10b" Scenes.accepting
                  Scenes.cdn Samples.categories Samples.warehouses
                  Scenes.withPhoto Scenes.photo eq_refl)).
  reflexivity.
Defined.

Lemma attached_file_keeps_name_witness :
  Upload.filePath "f47ac10b"
    (ImageCompressor.mkFile "noise.png" "image/jpeg" [Byte.x2a] 5)
  = Upload.filePath "f47ac10b" Samples.smallNoisyImage.
Proof.
  apply (attached_file_keeps_name
           (fun _ => Some (200, 200)%float) (fun _ _ _ => Some [Byte.x2a]) 5
           "f47ac10b" Samples.smallNoisyImage
           (ImageCompressor.mkFile "noise.png" "image/jpeg" [Byte.x2a] 5)).
  vm_compute. reflexivity.
Defined.

Lemma file_errors_and_silent_drop_witness :
  ImageCompressor.handleFileChange (fun _ => None) (fun _ _ _ => None) 0
    (Some Samples.smallNoisyImage)
  = inr None.
Proof.
  apply (proj2 (proj2 (file_errors_and_silent_drop (fun _ => None)
                         (fun _ _ _ => None) 0 Samples.smallNoisyImage))).
  - simpl. tauto.
  - vm_compute. reflexivity.
  - reflexivity.
Defined.

Lemma loadData_survives_failed_reads_witness :
  Page.totalItems
    (Catalog.loadData Scenes.brokenRead Scenes.serverWarehouses
       (Store.select Samples.stock) Page.initialState) = 3.
Proof.
  destruct (loadData_survives_failed_reads Scenes.brokenRead
              Scenes.serverWarehouses (Store.select Samples.stock)
              Page.initialState) as (_ & _ & _ & Hfetched & _).
  exact (proj1 (Hfetched eq_refl)).
Defined.

Lemma loadData_attaches_the_render_catalogs_witness :
  map Reconciler.e_category_id
    (Page.items
       (Catalog.loadData Scenes.serverCategories Scenes.serverWarehouses
          (Store.select Samples.stock) Page.initialState))
  = map (fun _ => Reconciler.IdString "") Samples.stock.
Proof.
  rewrite (proj1 (loadData_attaches_the_render_catalogs
                    Scenes.serverCategories Scenes.serverWarehouses
                    (Store.select Samples.stock) Page.initialState _
                    eq_refl eq_refl)).
  reflexivity.
Defined.

Lemma burst_fetches_once_per_change_plus_one_witness :
  Effects.fetchLog
    (Effects.advance 1000
       (Effects.run
          [(100, Page.SearchInput "s"); (300, Page.CategorySelect "Tools")]
          (Lifecycle.mount 0 Page.initialState)))
  = [(800, Effects.DelaySearch); (300, Effects.LoadData);
     (100, Effects.LoadData); (0, Effects.LoadData)].
Proof.
  destruct (burst_fetches_once_per_change_plus_one
              (100, Page.SearchInput "s") [(300, Page.CategorySelect "Tools")]
              (Lifecycle.mount 0 Page.initialState) 0 1000) as (Hlog & _).
  - intros due H. injection H as <-. reflexivity.
  - simpl. repeat split; lia.
  - vm_compute. discriminate.
  - exact Hlog.
Defined.

Lemma page_click_fetches_at_once_witness :
  Effects.fetchLog
    (Effects.dispatch (Effects.idle Scenes.fifthOfEight) (10, Page.PageClick 6))
  = [(10, Effects.LoadData)].
Proof.
  rewrite (proj1 (page_click_fetches_at_once (Effects.idle Scenes.fifthOfEight)
                    10 6)).
  - reflexivity.
  - vm_compute. split; discriminate.
  - vm_compute. discriminate.
Defined.

Lemma encoded_name_is_url_safe_witness :
  View.encodeURIComponent "Hammer-2_(new)" = "Hammer-2_(new)".
Proof.
  apply (proj1 (proj2 (proj2 (encoded_name_is_url_safe "Hammer-2_(new)")))).
  repeat constructor.
Defined.

Lemma pages_tile_the_matching_rows_witness :
  map Reconciler.e_name
    (Page.items (Page.fetchInventory (Store.select Samples.stock)
                   (Page.setCurrentPage Scenes.pairs 1))
     ++ Page.items (Page.fetchInventory (Store.select Samples.stock)
                      (Page.setCurrentPage Scenes.pairs 2)))%list
  = ["Anvil"; "Crate"; "Hammer"].
Proof.
  assert (H := proj1 (pages_tile_the_matching_rows Samples.stock Scenes.pairs
                        eq_refl) 2%nat).
  cbn [seq map List.concat] in H. rewrite app_nil_r in H.
  change (Z.of_nat 1) with 1 in H. change (Z.of_nat 2) with 2 in H.
  rewrite H. reflexivity.
Defined.

Lemma unresolved_names_are_not_written_witness :
  Reconciler.row_category
    (Reconciler.updateData Samples.categories Samples.warehouses
       (Reconciler.openEditModal
          (Reconciler.enhance Samples.categories Samples.warehouses
             Samples.crate)) None)
  = None.
Proof.
  apply (proj1 (unresolved_names_are_not_written Samples.categories
                  Samples.warehouses Samples.crate None)).
  intros c [<- | [<- | []]]; discriminate.
Defined.

(** * The status badge and the filtered fetch, on the page's own data *)

Section BadgeFacts.
Import JS Reconciler.

(** C9: for every stored row, whatever the catalogs, the badge shown for
    its item in the table is "Low Stock" exactly when the row's quantity is
    at most its threshold ([<=] on numbers) and "In Stock" otherwise; in
    particular a quantity equal ([===]) to the threshold is low stock, a
    row with quantity 5 and threshold 10 is low stock, and a row with
    quantity 11 and threshold 10 is in stock. *)
Theorem badge_low_stock_iff_quantity_le_threshold :
  forall categories warehouses row,
    let item := enhance categories warehouses row in
    (badge item = "Low Stock"
     <-> (item_quantity row <=? item_threshold row)%float = true)
    /\ (badge item = "In Stock"
        <-> (item_quantity row <=? item_threshold row)%float = false)
    /\ (strict_eq (item_quantity row) (item_threshold row) = true ->
        badge item = "Low Stock")
    /\ (item_quantity row = 5%float -> item_threshold row = 10%float ->
        badge item = "Low Stock")
    /\ (item_quantity row = 11%float -> item_threshold row = 10%float ->
        badge item = "In Stock").
Proof.
  intros categories warehouses row item.
  assert (Hbadge : badge item
                   = if (item_quantity row <=? item_threshold row)%float
                     then "Low Stock" else "In Stock").
  { subst item. unfold badge, enhance, stockStatus.
    cbn [e_quantity e_threshold].
    destruct (item_quantity row <=? item_threshold row)%float; reflexivity. }
  rewrite Hbadge.
  split; [| split; [| split; [| split]]].
  - destruct (item_quantity row <=? item_threshold row)%float;
      split; intros H; try reflexivity; discriminate H.
  - destruct (item_quantity row <=? item_threshold row)%float;
      split; intros H; try reflexivity; discriminate H.
  - intros Heq. now rewrite (strict_eq_leb _ _ Heq).
  - intros -> ->. reflexivity.
  - intros -> ->. reflexivity.
Qed.

End BadgeFacts.

Lemma badge_low_stock_iff_quantity_le_threshold_witness :
  Reconciler.badge
    (Reconciler.enhance Samples.categories Samples.warehouses Samples.hammer)
  = "Low Stock"
  /\ Reconciler.badge
       (Reconciler.enhance Samples.categories Samples.warehouses Samples.crate)
     = "In Stock".
Proof.
  split.
  - apply (badge_low_stock_iff_quantity_le_threshold Samples.categories
             Samples.warehouses Samples.hammer); reflexivity.
  - apply (badge_low_stock_iff_quantity_le_threshold Samples.categories
             Samples.warehouses Samples.crate); reflexivity.
Defined.

Section WantedFacts.
Import JS Reconciler Page Meaning.

(** The request that [fetchInventory] builds selects the rows the user
    asks for. *)
Lemma matches_buildRequest (st : PageState) (row : StockItem) :
  Store.matches (buildRequest st) row = wanted st row.
Proof.
  unfold Store.matches, buildRequest, wanted, truthy_string, Store.eq_column.
  cbn [req_ilike req_category req_warehouse].
  destruct (String.eqb (searchTerm st) "");
    destruct (String.eqb (filterCategory st) "");
    destruct (String.eqb (filterWarehouse st) ""); reflexivity.
Qed.

Lemma filter_matches_buildRequest (st : PageState) table :
  filter (Store.matches (buildRequest st)) table = filter (wanted st) table.
Proof. apply filter_ext. intros row. apply matches_buildRequest. Qed.

Lemma In_insert_by_name x row sorted :
  In x (Store.insert_by_name row sorted) -> x = row \/ In x sorted.
Proof.
  induction sorted as [| r rest IH]; cbn [Store.insert_by_name].
  - intros [<- | []]. now left.
  - destruct (String.leb (item_name row) (item_name r)).
    + intros [<- | H]; [now left | now right].
    + intros [<- | H]; [right; now left |].
      destruct (IH H) as [-> | Hin]; [now left | right; now right].
Qed.

Lemma In_order_by_name x rows :
  In x (Store.order_by_name rows) -> In x rows.
Proof.
  unfold Store.order_by_name.
  induction rows as [| r rest IH]; cbn [fold_right]; [trivial |].
  intros H. apply In_insert_by_name in H.
  destruct H as [-> | H]; [now left | right; now apply IH].
Qed.

Lemma In_range x from to rows :
  In x (Store.range from to rows) -> In x rows.
Proof.
  unfold Store.range. intros H.
  rewrite <- (firstn_skipn (Z.to_nat from) rows). apply in_or_app. right.
  set (tail := skipn (Z.to_nat from) rows) in *.
  rewrite <- (firstn_skipn (Z.to_nat (to - from + 1)) tail).
  apply in_or_app. now left.
Qed.

Lemma ilike_literal (c : ascii) (p s : string) :
  plain_char c = true ->
  Store.ilike (String c p) s
  = match s with
    | String d s' => Ascii.eqb (Store.lower c) (Store.lower d) && Store.ilike p s'
    | EmptyString => false
    end.
Proof.
  destruct c as [[] [] [] [] [] [] [] []]; intros H;
    try discriminate H; reflexivity.
Qed.

Lemma ilike_any (p s : string) :
  Store.ilike (String "%" p) s
  = Store.ilike p s
    || match s with
       | String _ s' => Store.ilike (String "%" p) s'
       | EmptyString => false
       end.
Proof. destruct s; reflexivity. Qed.

Lemma ilike_percent (s : string) : Store.ilike "%" s = true.
Proof.
  induction s as [| c s IH]; [reflexivity |].
  rewrite ilike_any, IH. apply orb_true_r.
Qed.

Lemma ilike_prefix (t s : string) :
  plain t = true -> Store.ilike (t ++ "%") s = ci_prefix t s.
Proof.
  revert s. induction t as [| c t IH]; intros s Ht.
  - apply ilike_percent.
  - unfold plain in Ht. cbn [list_ascii_of_string forallb] in Ht.
    apply andb_true_iff in Ht. destruct Ht as [Hc Ht].
    cbn [String.append ci_prefix]. rewrite (ilike_literal c _ s Hc).
    destruct s as [| d s]; [reflexivity |]. now rewrite (IH s Ht).
Qed.

(** For a term without pattern characters, the name test of [wanted] is
    containment of the term in the name, without regard to case. *)
Lemma ilike_contains (t s : string) :
  plain t = true -> Store.ilike ("%" ++ t ++ "%") s = contains_ci t s.
Proof.
  intros Ht. induction s as [| d s IH].
  - change ("%" ++ t ++ "%")%string with (String "%" (t ++ "%")).
    rewrite ilike_any, (ilike_prefix t _ Ht). reflexivity.
  - change ("%" ++ t ++ "%")%string with (String "%" (t ++ "%")) in *.
    rewrite ilike_any, (ilike_prefix t _ Ht), IH. reflexivity.
Qed.

(** C6: page [p >= 1] of size [s] asks for the offsets [(p-1)*s] to
    [p*s - 1]; against the store, the published total is the number of
    rows the user asks for (those whose name matches the typed term and
    whose category and warehouse are the chosen ones), whatever page is
    asked for; every published item is the enriched form of such a row; a
    page beyond the last one publishes no item, the total being the same;
    and [totalPages] is the ceiling of [totalItems / itemsPerPage].  For a
    term without pattern characters the name test is containment of the
    term, without regard to case. *)
Theorem fetch_counts_the_wanted_rows :
  forall table st,
    1 <= currentPage st -> 0 < itemsPerPage st ->
    let p := currentPage st in
    let s := itemsPerPage st in
    let st' := fetchInventory (Store.select table) st in
    req_from (buildRequest st) = (p - 1) * s
    /\ req_to (buildRequest st) = p * s - 1
    /\ totalItems st' = Z.of_nat (List.length (filter (wanted st) table))
    /\ (forall page,
          totalItems (fetchInventory (Store.select table)
                        (setCurrentPage st page))
          = Z.of_nat (List.length (filter (wanted st) table)))
    /\ (forall e, In e (items st') ->
          exists row,
            In row table /\ wanted st row = true
            /\ e = enhance (categories st) (warehouses st) row)
    /\ (totalPages st' < p -> items st' = [])
    /\ (totalPages st' - 1) * s < totalItems st'
    /\ totalItems st' <= totalPages st' * s
    /\ (plain (searchTerm st) = true ->
        forall row,
          wanted st row
          = contains_ci (searchTerm st) (item_name row)
            && (String.eqb (filterCategory st) ""
                || match item_category row with
                   | Some c => String.eqb c (filterCategory st)
                   | None => false
                   end)
            && (String.eqb (filterWarehouse st) ""
                || match item_warehouse row with
                   | Some w => String.eqb w (filterWarehouse st)
                   | None => false
                   end)).
Proof.
  intros table st Hp Hs p s st'.
  destruct (fetch_window_count_and_total_pages table st Hp Hs)
    as (Hfrom & Hto & Hcount & Hany & Hpast & Hlow & Hhigh).
  fold st' in Hcount, Hany, Hpast, Hlow, Hhigh. fold p s in Hfrom, Hto.
  rewrite filter_matches_buildRequest in Hcount.
  split; [exact Hfrom |]. split; [exact Hto |]. split; [exact Hcount |].
  split; [intros page; rewrite Hany; exact Hcount |].
  split.
  { intros e He. subst st'. rewrite fetchInventory_select in He.
    assert (Hitems : In e
              (map (enhance (categories st) (warehouses st))
                 (Store.range (req_from (buildRequest st))
                    (req_to (buildRequest st))
                    (Store.order_by_name
                       (filter (Store.matches (buildRequest st)) table)))))
      by (destruct st; exact He).
    apply in_map_iff in Hitems. destruct Hitems as [row [<- Hrow]].
    apply In_range, In_order_by_name in Hrow.
    rewrite filter_matches_buildRequest in Hrow.
    apply filter_In in Hrow. destruct Hrow as [Hin Hw].
    now exists row. }
  split; [exact Hpast |]. split; [exact Hlow |]. split; [exact Hhigh |].
  intros Hplain row. unfold wanted.
  rewrite (ilike_contains _ _ Hplain).
  destruct (String.eqb_spec (searchTerm st) "") as [-> | _];
    [| reflexivity].
  cbn [orb]. destruct (item_name row); reflexivity.
Qed.

End WantedFacts.

Lemma fetch_counts_the_wanted_rows_witness :
  Page.totalItems
    (Page.fetchInventory (Store.select Samples.stock)
       (Page.mkPage [] Samples.categories Samples.warehouses false 3 2 0
          "AM" "Tools" "" None)) = 1
  /\ Page.items
       (Page.fetchInventory (Store.select Samples.stock)
          (Page.mkPage [] Samples.categories Samples.warehouses false 3 2 0
             "AM" "Tools" "" None)) = [].
Proof.
  destruct (fetch_counts_the_wanted_rows Samples.stock
              (Page.mkPage [] Samples.categories Samples.warehouses false 3 2 0
                 "AM" "Tools" "" None))
    as (_ & _ & Hcount & _ & _ & Hpast & _).
  - vm_compute. discriminate.
  - reflexivity.
  - split.
    + rewrite Hcount. reflexivity.
    + apply Hpast. vm_compute. reflexivity.
Defined.

(** * Identifiers that do and do not resolve, and what a save writes *)

Section WrittenFacts.
Import JS Reconciler Page Catalog Meaning.

Lemma holds_id_parsed (v : formId) (n : Z) :
  holds_id v n -> parseInt_formId v = Some n /\ truthy_formId v = true.
Proof.
  intros [[-> Hn] | ->]; cbn [parseInt_formId truthy_formId].
  - split; [reflexivity |].
    destruct (Z.eqb_spec n 0); [contradiction | reflexivity].
  - split; [apply parseInt_toString | apply toString_nonempty].
Qed.

Lemma parseInt_letter (c : ascii) (rest : string) :
  is_letter c = true -> parseInt (String c rest) = None.
Proof.
  destruct c as [[] [] [] [] [] [] [] []]; intros H;
    try discriminate H; reflexivity.
Qed.

Lemma find_by_id_absent (catalog : list Reference) (v : formId) (n : Z) :
  parseInt_formId v = Some n ->
  (forall c, In c catalog -> ref_id c <> n) ->
  find_by_id catalog v = None.
Proof.
  intros Hv Hno. unfold find_by_id. rewrite Hv. cbn [strict_eq_parsed].
  induction catalog as [| a l IH]; cbn [find]; [reflexivity |].
  destruct (Z.eqb_spec (ref_id a) n) as [E | _].
  - exfalso. apply (Hno a); [now left | exact E].
  - apply IH. intros c Hc. apply Hno. now right.
Qed.

Lemma find_by_id_nan (catalog : list Reference) (v : formId) :
  parseInt_formId v = None -> find_by_id catalog v = None.
Proof.
  intros Hv. unfold find_by_id. rewrite Hv. cbn [strict_eq_parsed].
  induction catalog as [| a l IH]; cbn [find]; [reflexivity | exact IH].
Qed.

Lemma find_by_id_first (catalog before after : list Reference) c v n :
  parseInt_formId v = Some n ->
  catalog = (before ++ c :: after)%list -> ref_id c = n ->
  (forall b, In b before -> ref_id b <> n) ->
  find_by_id catalog v = Some c.
Proof.
  intros Hv -> Hc Hno.
  assert (Hbefore := find_by_id_absent before v n Hv Hno).
  unfold find_by_id in *. rewrite find_app_first, Hbefore, Hv.
  cbn [find strict_eq_parsed]. rewrite Hc, Z.eqb_refl. reflexivity.
Qed.

Lemma row_category_written categories warehouses form thumbnailUrl :
  row_category (updateData categories warehouses form thumbnailUrl)
  = (if truthy_formId (form_category_id form)
     then option_map ref_name (find_by_id categories (form_category_id form))
     else None)
  /\ row_category (insertData categories warehouses form thumbnailUrl)
     = row_category (updateData categories warehouses form thumbnailUrl).
Proof.
  unfold updateData, insertData.
  destruct (truthy_formId (form_category_id form));
    [destruct (find_by_id categories _) |];
    (destruct (truthy_formId (form_warehouse_id form));
     [destruct (find_by_id warehouses _) |]); split; reflexivity.
Qed.

Lemma row_warehouse_written categories warehouses form thumbnailUrl :
  row_warehouse (updateData categories warehouses form thumbnailUrl)
  = (if truthy_formId (form_warehouse_id form)
     then option_map ref_name (find_by_id warehouses (form_warehouse_id form))
     else None)
  /\ row_warehouse (insertData categories warehouses form thumbnailUrl)
     = row_warehouse (updateData categories warehouses form thumbnailUrl).
Proof.
  unfold updateData, insertData.
  destruct (truthy_formId (form_category_id form));
    [destruct (find_by_id categories _) |];
    (destruct (truthy_formId (form_warehouse_id form));
     [destruct (find_by_id warehouses _) |]); split; reflexivity.
Qed.

(** C5, as the code has it: when the form's [category_id] holds an
    identifier (the number of a fetched item, or the decimal string a
    [select] hands over) that no entry of the catalog bears, or a string
    that is no number at all, the row written by [saveEditedItem] and by
    [addItem] has no category key, so it carries nothing of the stored
    value, and the update being partial the stored row keeps the category
    it had; when an entry bears the identifier, the first such entry's
    name is written and becomes the stored category.  The same holds for
    [warehouse_id] and the warehouse. *)
Theorem unresolved_id_leaves_the_stored_name :
  forall categories warehouses form thumbnailUrl,
    let written := updateData categories warehouses form thumbnailUrl in
    let inserted := insertData categories warehouses form thumbnailUrl in
    (forall n,
        holds_id (form_category_id form) n ->
        (forall c, In c categories -> ref_id c <> n) ->
        row_category written = None /\ row_category inserted = None
        /\ forall stored,
             item_category (Writes.patch stored written)
             = item_category stored)
    /\ (forall c rest,
           form_category_id form = IdString (String c rest) ->
           is_letter c = true ->
           row_category written = None /\ row_category inserted = None)
    /\ (forall n before c after,
           holds_id (form_category_id form) n ->
           categories = (before ++ c :: after)%list -> ref_id c = n ->
           (forall b, In b before -> ref_id b <> n) ->
           row_category written = Some (ref_name c)
           /\ row_category inserted = Some (ref_name c)
           /\ forall stored,
                item_category (Writes.patch stored written)
                = Some (ref_name c))
    /\ (forall n,
           holds_id (form_warehouse_id form) n ->
           (forall w, In w warehouses -> ref_id w <> n) ->
           row_warehouse written = None /\ row_warehouse inserted = None
           /\ forall stored,
                item_warehouse (Writes.patch stored written)
                = item_warehouse stored)
    /\ (forall c rest,
           form_warehouse_id form = IdString (String c rest) ->
           is_letter c = true ->
           row_warehouse written = None /\ row_warehouse inserted = None)
    /\ (forall n before w after,
           holds_id (form_warehouse_id form) n ->
           warehouses = (before ++ w :: after)%list -> ref_id w = n ->
           (forall b, In b before -> ref_id b <> n) ->
           row_warehouse written = Some (ref_name w)
           /\ row_warehouse inserted = Some (ref_name w)
           /\ forall stored,
                item_warehouse (Writes.patch stored written)
                = Some (ref_name w)).
Proof.
  intros categories warehouses form thumbnailUrl written inserted.
  destruct (row_category_written categories warehouses form thumbnailUrl)
    as [Hc Hci].
  destruct (row_warehouse_written categories warehouses form thumbnailUrl)
    as [Hw Hwi].
  fold written in Hc, Hci, Hw, Hwi. fold inserted in Hci, Hwi.
  split; [| split; [| split; [| split; [| split]]]].
  - intros n Hid Hno. destruct (holds_id_parsed _ _ Hid) as [Hp Ht].
    assert (H : row_category written = None)
      by now rewrite Hc, Ht, (find_by_id_absent _ _ _ Hp Hno).
    split; [exact H |]. split; [now rewrite Hci |].
    intros stored. unfold Writes.patch. cbn [item_category]. now rewrite H.
  - intros c rest Hid Hletter.
    assert (H : row_category written = None).
    { rewrite Hc, Hid. cbn [truthy_formId]. rewrite find_by_id_nan.
      - now destruct (truthy_string (String c rest)).
      - cbn [parseInt_formId]. now apply parseInt_letter. }
    split; [exact H | now rewrite Hci].
  - intros n before c after Hid Hcat Hrefid Hno.
    destruct (holds_id_parsed _ _ Hid) as [Hp Ht].
    assert (H : row_category written = Some (ref_name c))
      by now rewrite Hc, Ht, (find_by_id_first _ _ _ _ _ _ Hp Hcat Hrefid Hno).
    split; [exact H |]. split; [now rewrite Hci |].
    intros stored. unfold Writes.patch. cbn [item_category]. now rewrite H.
  - intros n Hid Hno. destruct (holds_id_parsed _ _ Hid) as [Hp Ht].
    assert (H : row_warehouse written = None)
      by now rewrite Hw, Ht, (find_by_id_absent _ _ _ Hp Hno).
    split; [exact H |]. split; [now rewrite Hwi |].
    intros stored. unfold Writes.patch. cbn [item_warehouse]. now rewrite H.
  - intros c rest Hid Hletter.
    assert (H : row_warehouse written = None).
    { rewrite Hw, Hid. cbn [truthy_formId]. rewrite find_by_id_nan.
      - now destruct (truthy_string (String c rest)).
      - cbn [parseInt_formId]. now apply parseInt_letter. }
    split; [exact H | now rewrite Hwi].
  - intros n before w after Hid Hcat Hrefid Hno.
    destruct (holds_id_parsed _ _ Hid) as [Hp Ht].
    assert (H : row_warehouse written = Some (ref_name w))
      by now rewrite Hw, Ht, (find_by_id_first _ _ _ _ _ _ Hp Hcat Hrefid Hno).
    split; [exact H |]. split; [now rewrite Hwi |].
    intros stored. unfold Writes.patch. cbn [item_warehouse]. now rewrite H.
Qed.

(** C5 does not hold as stated: the hammer is stored with category
    "Tools"; its edit form is given the category id 99, which no entry
    bears; the update that [saveEditedItem] sends has no category key, and
    once the store has applied it the hammer still has category "Tools":
    the previous stored value is preserved. *)
Lemma unresolved_id_keeps_stored_category :
  let form :=
    handleEditChange Samples.notANumber
      (openEditModal
         (enhance Samples.categories Samples.warehouses Samples.hammer))
      "category_id" "99" in
  item_category Samples.hammer = Some "Tools"
  /\ find_by_id Samples.categories (form_category_id form) = None
  /\ saveEditedItem Samples.offline Samples.categories Samples.warehouses form
     = inr (mkUpdate (Some 7)
              (mkStorageRow "Hammer" 5%float 12500%float 10%float None
                 None (Some "Main")))
  /\ map item_category
       (Writes.update Samples.stock
          (mkUpdate (Some 7)
             (mkStorageRow "Hammer" 5%float 12500%float 10%float None
                None (Some "Main"))))
     = map item_category Samples.stock.
Proof. repeat split; vm_compute; reflexivity. Qed.

(** What [loadData] publishes on the first load, opened in the edit form
    and saved unchanged against the catalogs just read, writes neither a
    category nor a warehouse. *)
Lemma first_load_writes_no_name :
  forall categoryRead warehouseRead select uploadImage rows,
    resp_error (select (buildRequest initialState)) = None ->
    resp_data (select (buildRequest initialState)) = Some rows ->
    let loaded := loadData categoryRead warehouseRead select initialState in
    Forall (fun e =>
              exists data,
                saveEditedItem uploadImage (categories loaded)
                  (warehouses loaded) (openEditModal e)
                = inr (mkUpdate (Some (e_id e)) data)
                /\ row_category data = None /\ row_warehouse data = None)
      (items loaded).
Proof.
  intros categoryRead warehouseRead select uploadImage rows Hok Hdata loaded.
  destruct (loadData_attaches_the_render_catalogs_aux categoryRead
              warehouseRead select initialState rows Hok Hdata)
    as [_ Hids].
  specialize (Hids eq_refl eq_refl). fold loaded in Hids.
  eapply Forall_impl; [| exact Hids].
  intros e (Hcid & Hwid & _). unfold saveEditedItem, thumbnailUrl_of.
  cbn [openEditModal form_file form_thumbnail form_id].
  eexists. split; [reflexivity |].
  unfold updateData.
  cbn [openEditModal form_category_id form_warehouse_id].
  rewrite Hcid, Hwid. split; reflexivity.
Qed.

(** C4: evaluation of the code where the round trip fails though both
    names resolve.  On the first load the server's catalogs hold "Tools"
    and "Main" and the store holds the hammer; the hammer is published,
    but enriched against the empty catalogs of the first render, and its
    edit form saved unchanged sends an update with neither category nor
    warehouse.  And with a catalog whose "Tools" entry has identifier 0,
    the form id is the empty string and the update has no category. *)
Theorem round_trip_loses_resolved_names :
  let loaded :=
    loadData Scenes.serverCategories Scenes.serverWarehouses
      (Store.select Samples.stock) initialState in
  let shown := enhance [] [] Samples.hammer in
  (categories loaded = Samples.categories
   /\ warehouses loaded = Samples.warehouses
   /\ find_by_name (categories loaded) "Tools" = Some (mkReference 2 "Tools")
   /\ find_by_name (warehouses loaded) "Main" = Some (mkReference 1 "Main")
   /\ In shown (items loaded)
   /\ saveEditedItem Samples.offline (categories loaded) (warehouses loaded)
        (openEditModal shown)
      = inr (mkUpdate (Some 7)
               (mkStorageRow "Hammer" 5%float 12500%float 10%float None
                  None None))
   /\ saveEditedItem Samples.offline (categories loaded) (warehouses loaded)
        (openEditModal shown)
      <> inr (request_of_row Samples.hammer))
  /\ (find_by_name Samples.zeroCategories "Tools"
      = Some (mkReference 0 "Tools")
      /\ e_category_id
           (enhance Samples.zeroCategories Samples.warehouses Samples.hammer)
         = IdString ""
      /\ saveEditedItem Samples.offline Samples.zeroCategories
           Samples.warehouses
           (openEditModal
              (enhance Samples.zeroCategories Samples.warehouses
                 Samples.hammer))
         = inr (mkUpdate (Some 7)
                  (mkStorageRow "Hammer" 5%float 12500%float 10%float None
                     None (Some "Main")))).
Proof.
  cbv zeta. split.
  - repeat (split; [vm_compute; try reflexivity; tauto |]).
    vm_compute. intros H. discriminate H.
  - repeat split; vm_compute; reflexivity.
Qed.

Example parseInt_skips_unicode_white_space :
  parseInt (String (ascii_of_nat 194) (String (ascii_of_nat 160) "1"))
  = Some 1
  /\ parseInt (String (ascii_of_nat 226)
                 (String (ascii_of_nat 128) (String (ascii_of_nat 137) "42")))
     = Some 42.
Proof. split; reflexivity. Qed.

End WrittenFacts.

Lemma unresolved_id_leaves_the_stored_name_witness :
  let form :=
    Reconciler.handleEditChange Samples.notANumber
      (Reconciler.openEditModal
         (Reconciler.enhance Samples.categories Samples.warehouses
            Samples.hammer))
      "category_id" (Conversions.toString 99) in
  Reconciler.row_category
    (Reconciler.updateData Samples.categories Samples.warehouses form None)
  = None
  /\ Reconciler.row_warehouse
       (Reconciler.updateData Samples.categories Samples.warehouses form None)
     = Some "Main".
Proof.
  intros form.
  destruct (unresolved_id_leaves_the_stored_name Samples.categories
              Samples.warehouses form None)
    as (Hnone & _ & _ & _ & _ & Hsome).
  split.
  - apply (Hnone 99).
    + right. reflexivity.
    + intros c [<- | [<- | []]]; discriminate.
  - apply (Hsome 1 [] (Reconciler.mkReference 1 "Main")
             [Reconciler.mkReference 4 "Annex"]).
    + left. split; [reflexivity | discriminate].
    + reflexivity.
    + reflexivity.
    + intros b [].
Defined.
